(** * vsketch.display: a shallow embedding of [src/vsketch/display.py]

    The module previews a [vpype] document either on a matplotlib canvas
    ([display_matplotlib]) or as an SVG fragment handed to IPython
    ([display_ipython]); [display] chooses between the two.

    Python floats are IEEE binary64 numbers and are modelled by Rocq's
    primitive floats, whose operations are the same binary64 operations.
    Calls on the external collaborators (matplotlib's pyplot, [logging],
    IPython) are recorded, in order, as a trace of events; a raised exception
    ends the call and keeps the events emitted before it.

    An event records that a call was made.  The exceptions the collaborators
    raise of their own (matplotlib refusing a figure size, vpype's
    [bounds()] on a path without points) are not modelled: a property that
    states a normal end is stated for calls that create no figure and do not
    ask for the bounds, or under the assumption of a normal end. *)

From Stdlib Require Import PrimFloat List String Ascii ZArith Lia Bool Arith.
From Stdlib Require Import QArith.
From Stdlib Require Import DecimalString.
Import ListNotations.

Set Warnings "-inexact-float".
Local Open Scope string_scope.
Local Open Scope list_scope.
Local Close Scope Q_scope.
Local Open Scope nat_scope.

(** ** Exceptions and the trace monad *)

Inductive exn : Type :=
| ValueError (msg : string)
| RuntimeError (msg : string)
| ZeroDivisionError
| IndexError.

Inductive result (A : Type) : Type :=
| Ok (a : A)
| Raise (e : exn).
Arguments Ok {A} a.
Arguments Raise {A} e.

Definition rbind {A B} (r : result A) (f : A -> result B) : result B :=
  match r with
  | Ok a => f a
  | Raise e => Raise e
  end.

Fixpoint mapR {A B} (f : A -> result B) (l : list A) : result (list B) :=
  match l with
  | [] => Ok []
  | x :: xs => rbind (f x) (fun y => rbind (mapR f xs) (fun ys => Ok (y :: ys)))
  end.

(** ** Numbers *)

(** The arithmetic the offset computation uses.  The program runs it on
    binary64 floats; the same text read over the rationals is the exact
    arithmetic the rounding approximates. *)
Class Arith (N : Type) : Type := {
  n_zero : N;
  n_two : N;
  n_add : N -> N -> N;
  n_sub : N -> N -> N;
  n_div : N -> N -> N
}.

#[global] Instance Arith_float : Arith float := {
  n_zero := 0%float;
  n_two := 2%float;
  n_add := PrimFloat.add;
  n_sub := PrimFloat.sub;
  n_div := PrimFloat.div
}.

#[global] Instance Arith_Q : Arith Q := {
  n_zero := 0%Q;
  n_two := 2%Q;
  n_add := Qplus;
  n_sub := Qminus;
  n_div := Qdiv
}.

(** Python's [complex]: a pair of numbers. *)
Record complex (N : Type) : Type := Complex { real : N; imag : N }.
Arguments Complex {N} real imag.
Arguments real {N} c.
Arguments imag {N} c.

Definition cadd {N} `{Arith N} (a b : complex N) : complex N :=
  Complex (n_add (real a) (real b)) (n_add (imag a) (imag b)).

(** A row of an [N x 2] numpy array of floats. *)
Definition vec2 : Type := (float * float)%type.

Definition vadd (a b : vec2) : vec2 :=
  (PrimFloat.add (fst a) (fst b), PrimFloat.add (snd a) (snd b)).

Definition vscale (a : vec2) (s : float) : vec2 :=
  (PrimFloat.mul (fst a) s, PrimFloat.mul (snd a) s).

(** Python's true division on floats: a zero divisor (of either sign)
    raises. *)
Definition py_div (a b : float) : result float :=
  if PrimFloat.eqb b 0%float then Raise ZeroDivisionError
  else Ok (PrimFloat.div a b).

(** ** The data model: vpype's documents *)

(** A path is a one-dimensional array of complex numbers, a layer (vpype's
    [LineCollection]) a list of paths, and [document.layers] a dict from layer
    id to layer, iterated in insertion order. *)
Definition Path : Type := list (complex float).
Definition LineCollection : Type := list Path.

Record Document : Type := {
  layers : list (Z * LineCollection)
}.

(** [(xmin, ymin, xmax, ymax)], the tuple [Document.bounds()] returns. *)
Definition Bounds (N : Type) : Type := (N * N * N * N)%type.

Definition bounds_0 {N} (b : Bounds N) : N := fst (fst (fst b)).
Definition bounds_1 {N} (b : Bounds N) : N := snd (fst (fst b)).
Definition bounds_2 {N} (b : Bounds N) : N := snd (fst b).
Definition bounds_3 {N} (b : Bounds N) : N := snd b.

(** [vp.as_vector]: the complex array seen as rows [(real, imag)]. *)
Definition as_vector (line : Path) : list vec2 :=
  map (fun c => (real c, imag c)) line.

(** Indexing [a[-1]] and [a[0]] of an array. *)
Definition py_last {A} (a : list A) : result A :=
  match rev a with
  | x :: _ => Ok x
  | [] => Raise IndexError
  end.

Definition py_first {A} (a : list A) : result A :=
  match a with
  | x :: _ => Ok x
  | [] => Raise IndexError
  end.

(** Indexing [l[i]] with a non-negative index. *)
Definition py_index {A} (l : list A) (i : nat) : result A :=
  match nth_error l i with
  | Some x => Ok x
  | None => Raise IndexError
  end.

(** ** The palette *)

Definition rgb : Type := (float * float * float)%type.

Definition COLORS : list rgb :=
  [ (0, 0, 1);
    (0, 0.5, 0);
    (1, 0, 0);
    (0, 0.75, 0.75);
    (0, 1, 0);
    (0.75, 0, 0.75);
    (0.75, 0.75, 0);
    (0, 0, 0) ]%float.

(** ** The collaborators *)

(** What the code takes from outside this file: vpype's unit conversion,
    bounds and SVG writer, the constants of [vsketch.environment], whether
    the IPython module is loaded, the number [random.randint] returns, and
    Python's printing of a float. *)
Record Host : Type := {
  convert_length : string -> result float;
  document_bounds : Document -> option (Bounds float);
  write_svg :
    Document -> float * float -> bool -> bool -> string -> string;
  COLAB : bool;
  JUPYTERLAB : bool;
  get_svg_pan_zoom_url : string;
  IPython_in_sys_modules : bool;
  random_randint : Z -> Z -> Z;
  str_float : float -> string
}.

(** ** Events *)

(** The [color] argument of matplotlib's [LineCollection]: one colour for
    every line, or a list of colours the collection cycles through. *)
Inductive color_arg : Type :=
| OneColor (c : rgb)
| ColorList (cs : list rgb).

Record MplLineCollection : Type := {
  segments : list (list vec2);
  color : color_arg;
  lw : float;
  alpha : float;
  label : option string
}.

Inductive event : Type :=
| plt_figure (figsize : float * float)
| plt_cla
| plt_fill (xs ys : list float) (fmt : string) (alpha : float)
| plt_plot (xs ys : list float) (fmt : string) (lw : float)
| add_collection (c : MplLineCollection)
| invert_yaxis
| plt_axis (arg : string)
| plt_margins (x y : float)
| plt_xlabel (s : string)
| plt_ylabel (s : string)
| plt_grid (arg : string)
| plt_show
| logging_warning (msg : string)
| display_html (html : string).

(** A computation: the events it emitted and how it ended. *)
Definition M (A : Type) : Type := (list event * result A)%type.

Definition ret {A} (a : A) : M A := ([], Ok a).

Definition bind {A B} (m : M A) (f : A -> M B) : M B :=
  match m with
  | (t, Ok a) => let (t', r) := f a in (t ++ t', r)
  | (t, Raise e) => (t, Raise e)
  end.

Definition emit (e : event) : M unit := ([e], Ok tt).

Definition raise {A} (e : exn) : M A := ([], Raise e).

Definition lift {A} (r : result A) : M A := ([], r).

Definition when (b : bool) (m : M unit) : M unit :=
  if b then m else ret tt.

Declare Scope py_scope.
Delimit Scope py_scope with py.
Notation "x <- m ;; k" := (bind m (fun x => k))
  (at level 61, m at next level, right associativity) : py_scope.
Notation "m ;; k" := (bind m (fun _ => k))
  (at level 61, right associativity) : py_scope.
Local Open Scope py_scope.

Definition trace {A} (m : M A) : list event := fst m.
Definition outcome {A} (m : M A) : result A := snd m.

(** ** display_matplotlib *)

(** Lines 62-70: the translation that centres the drawing on the page.
    [bounds] is what [document.bounds()] returns; a tuple is true in a
    condition as soon as it is not [None]. *)
Definition compute_offset {N} `{Arith N}
    (center : bool) (page_size : option (N * N))
    (bounds : option (Bounds N)) : complex N :=
  match center, page_size with
  | true, Some page_size =>
      match bounds with
      | Some bounds =>
          Complex
            (n_sub (n_div (n_sub (fst page_size)
                                 (n_sub (bounds_2 bounds) (bounds_0 bounds)))
                          n_two)
                   (bounds_0 bounds))
            (n_sub (n_div (n_sub (snd page_size)
                                 (n_sub (bounds_3 bounds) (bounds_1 bounds)))
                          n_two)
                   (bounds_1 bounds))
      | None => Complex n_zero n_zero
      end
  | _, _ => Complex n_zero n_zero
  end.

(** Lines 77-86: the colour argument of one layer and the cursor after it. *)
Definition pick_color (colorful : bool) (color_idx : nat)
    (lc : LineCollection) : result (color_arg * nat) :=
  rbind
    (if colorful then
       Ok (ColorList (skipn color_idx COLORS ++ firstn color_idx COLORS),
           color_idx + List.length lc)
     else
       rbind (py_index COLORS color_idx)
             (fun c => Ok (OneColor c, color_idx + 1)))
    (fun '(color, color_idx) =>
       Ok (color,
           if List.length COLORS <=? color_idx
           then color_idx mod List.length COLORS
           else color_idx)).

(** Line 90: the strokes of a layer, [vp.as_vector(line + offset) * scale]. *)
Definition stroke (offset : complex float) (scale : float)
    (line : Path) : list vec2 :=
  map (fun v => vscale v scale)
      (as_vector (map (fun p => cadd p offset) line)).

(** Lines 102-108: the pen-up segments of a layer. *)
Definition pen_up_segments (lc : LineCollection) (offset_ndarr : vec2)
    (scale : float) : result (list (list vec2)) :=
  mapR
    (fun i =>
       rbind (py_index lc i) (fun a =>
       rbind (py_last (as_vector a)) (fun p =>
       rbind (py_index lc (i + 1)) (fun b =>
       rbind (py_first (as_vector b)) (fun q =>
       Ok [ vscale (vadd p offset_ndarr) scale;
            vscale (vadd q offset_ndarr) scale ])))))
    (seq 0 (List.length lc - 1)).

(** [str(layer_id)]. *)
Definition str_int (z : Z) : string := NilZero.string_of_int (Z.to_int z).

(** Lines 88-97: the strokes of a layer, as one matplotlib collection. *)
Definition layer_lines (offset : complex float) (scale : float)
    (layer_id : Z) (lc : LineCollection) (color : color_arg)
    : MplLineCollection :=
  {| segments := map (stroke offset scale) lc;
     color := color;
     lw := 1%float;
     alpha := 0.5%float;
     label := Some (str_int layer_id) |}.

(** Lines 99-114: the pen-up trajectories of a layer, drawn in black. *)
Definition pen_up_lines (offset : complex float) (scale : float)
    (lc : LineCollection) : M Datatypes.unit :=
  segs <- lift (pen_up_segments lc (real offset, imag offset) scale) ;;
  emit (add_collection
          {| segments := segs;
             color := OneColor (0, 0, 0)%float;
             lw := 0.5%float;
             alpha := 0.5%float;
             label := None |}).

(** Lines 76-114: the loop over the layers, with the cursor [color_idx]. *)
Fixpoint plot_layers (offset : complex float) (scale : float)
    (show_pen_up colorful : bool) (items : list (Z * LineCollection))
    (color_idx : nat) : M Datatypes.unit :=
  match items with
  | [] => ret tt
  | (layer_id, lc) :: items' =>
      cc <- lift (pick_color colorful color_idx lc) ;;
      emit (add_collection (layer_lines offset scale layer_id lc (fst cc))) ;;
      when show_pen_up (pen_up_lines offset scale lc) ;;
      plot_layers offset scale show_pen_up colorful items' (snd cc)
  end.

(** Lines 50-60: the page, a shadow and an outline. *)
Definition draw_page (page_size : option (float * float)) (scale : float)
    : M Datatypes.unit :=
  match page_size with
  | Some page_size =>
      let w := (fst page_size * scale)%float in
      let h := (snd page_size * scale)%float in
      let dw := (10 * scale)%float in
      emit (plt_fill [w; w + dw; w + dw; dw; dw; w]%float
                     [dw; dw; h + dw; h + dw; h; h]%float
                     "k" 0.3%float) ;;
      emit (plt_plot (map (fun x => x * w)%float [0; 1; 1; 0; 0]%float)
                     (map (fun y => y * h)%float [0; 0; 1; 1; 0]%float)
                     "-k" 0.25%float)
  | None => ret tt
  end.

Definition display_matplotlib (host : Host) (document : Document)
    (page_size : option (float * float))
    (center show_axes show_grid show_pen_up colorful : bool)
    (unit : string) (fig_size : option (float * float))
    : M Datatypes.unit :=
  f <- lift (convert_length host unit) ;;
  scale <- lift (py_div 1%float f) ;;
  match fig_size with
  | Some fig_size => emit (plt_figure fig_size)
  | None => ret tt
  end ;;
  emit plt_cla ;;
  draw_page page_size scale ;;
  let offset :=
    compute_offset center page_size (document_bounds host document) in
  plot_layers offset scale show_pen_up colorful (layers document) 0 ;;
  emit invert_yaxis ;;
  emit (plt_axis "equal") ;;
  emit (plt_margins 0%float 0%float) ;;
  (if show_axes || show_grid then
     emit (plt_axis "on") ;;
     emit (plt_xlabel ("[" ++ unit ++ "]")%string) ;;
     emit (plt_ylabel ("[" ++ unit ++ "]")%string)
   else
     emit (plt_axis "off")) ;;
  when show_grid (emit (plt_grid "on")) ;;
  emit plt_show.

(** ** display_ipython *)

(** The sizes printed into the markup are Python numbers: the literal [0]
    and the margin are ints, the page size and the bounds are floats. *)
Inductive number : Type :=
| Int (z : Z)
| Float (f : float).

(** [float(z)], exact for the ints that occur here (below [2^53]). *)
Fixpoint float_of_pos (p : positive) : float :=
  match p with
  | xH => 1%float
  | xO p => (2 * float_of_pos p)%float
  | xI p => (2 * float_of_pos p + 1)%float
  end.

Definition float_of_int (z : Z) : float :=
  match z with
  | Z0 => 0%float
  | Zpos p => float_of_pos p
  | Zneg p => PrimFloat.opp (float_of_pos p)
  end.

Definition number_add (a b : number) : number :=
  match a, b with
  | Int x, Int y => Int (x + y)
  | Int x, Float y => Float (float_of_int x + y)
  | Float x, Int y => Float (x + float_of_int y)
  | Float x, Float y => Float (x + y)
  end.

Definition str_number (host : Host) (n : number) : string :=
  match n with
  | Int z => str_int z
  | Float f => str_float host f
  end.

Definition dquote : string := String (ascii_of_nat 34) EmptyString.
Definition newline : string := String (ascii_of_nat 10) EmptyString.

Definition MARGIN : number := Int 10.

(** Lines 171-181. *)
Definition page_boundaries (host : Host) (svg_width svg_height : number)
    : string :=
  let s := str_number host in
  String.concat ""
    [ newline;
      "        <polygon points="; dquote; s svg_width; ","; s MARGIN; newline;
      "            "; s (number_add svg_width MARGIN); ","; s MARGIN; newline;
      "            "; s (number_add svg_width MARGIN); ",";
                      s (number_add svg_height MARGIN); newline;
      "            "; s MARGIN; ","; s (number_add svg_height MARGIN); newline;
      "            "; s MARGIN; ","; s svg_height; newline;
      "            "; s svg_width; ","; s svg_height; dquote; newline;
      "            style="; dquote; "fill:black;stroke:none;opacity:0.3;";
                      dquote; " />"; newline;
      "        <rect width="; dquote; s svg_width; dquote;
                      " height="; dquote; s svg_height; dquote; newline;
      "            style="; dquote;
                      "fill:none;stroke-width:1;stroke:rgb(0,0,0)"; dquote;
                      " />"; newline;
      "    " ].

(** Lines 186-205: the markup handed to [IPython.display.display_html]. *)
Definition preview_markup (host : Host) (page_size : option (float * float))
    (svg_width svg_height svg_margin : number) (svg_id svg : string)
    : string :=
  let s := str_number host in
  String.concat ""
    [ "<div id="; dquote; "container"; dquote; " style="; dquote;
      "width: 80%; height: "; s (number_add svg_height svg_margin); "px;";
      dquote; ">"; newline;
      "            <svg id="; dquote; svg_id; dquote; " width="; dquote;
      s (number_add svg_width svg_margin); "px"; dquote; newline;
      "                    height="; s (number_add svg_height svg_margin);
      newline;
      "                    viewBox="; dquote; "0 0 ";
      s (number_add svg_width svg_margin); " ";
      s (number_add svg_height svg_margin); dquote; ">"; newline;
      "                ";
      match page_size with
      | Some _ => page_boundaries host svg_width svg_height
      | None => ""
      end; newline;
      "                "; svg; newline;
      "            </svg>"; newline;
      "        </div>"; newline;
      "        <script src="; dquote; get_svg_pan_zoom_url host; dquote;
      "></script>"; newline;
      "        <script>"; newline;
      "            svgPanZoom('#"; svg_id; "', {"; newline;
      "                zoomEnabled: true,"; newline;
      "                controlIconsEnabled: true,"; newline;
      "                center: true,"; newline;
      "                zoomScaleSensitivity: 0.3,"; newline;
      "                contain: true,"; newline;
      "            });"; newline;
      "          </script>"; newline;
      "        " ].

Definition display_ipython (host : Host) (document : Document)
    (page_size : option (float * float)) (center show_pen_up : bool)
    (color_mode : string) : M Datatypes.unit :=
  if negb (IPython_in_sys_modules host) then
    raise (RuntimeError "IPython display cannot be used outside of IPython")
  else
    let svg :=
      write_svg host document
        (match page_size with
         | Some page_size => page_size
         | None => (0, 0)%float
         end)
        center show_pen_up color_mode in
    let '(svg_width, svg_height) :=
      match page_size with
      | None =>
          match document_bounds host document with
          | Some bounds =>
              (Float (bounds_2 bounds - bounds_0 bounds),
               Float (bounds_3 bounds - bounds_1 bounds))
          | None => (Int 0, Int 0)
          end
      | Some page_size => (Float (fst page_size), Float (snd page_size))
      end in
    let svg_margin :=
      match page_size with
      | Some _ => MARGIN
      | None => Int 0
      end in
    let svg_id :=
      ("svg_display_" ++ str_int (random_randint host 0 10000))%string in
    emit (display_html
            (preview_markup host page_size svg_width svg_height svg_margin
                            svg_id svg)).

(** ** display *)

Definition display (host : Host) (document : Document)
    (page_size : option (float * float))
    (center show_axes show_grid show_pen_up : bool)
    (color_mode unit : string) (mode : option string)
    (fig_size : option (float * float)) : M Datatypes.unit :=
  let mode :=
    match mode with
    | None => if COLAB host || JUPYTERLAB host then "ipython" else "matplotlib"
    | Some mode => mode
    end in
  if (mode =? "ipython")%string then
    when show_axes
      (emit (logging_warning
               "show_axis is not supported by the IPython display mode")) ;;
    when show_grid
      (emit (logging_warning
               "show_grid is not supported by the IPython display mode")) ;;
    when (negb (unit =? "px")%string)
      (emit (logging_warning
               "custom units are not supported by the IPython display mode")) ;;
    when (match fig_size with Some _ => true | None => false end)
      (emit (logging_warning
        "setting fig_size is not supported by the IPython display mode")) ;;
    display_ipython host document page_size center show_pen_up color_mode
  else if (mode =? "matplotlib")%string then
    display_matplotlib host document page_size center show_axes show_grid
      show_pen_up (color_mode =? "path")%string unit fig_size
  else
    raise (ValueError ("unsupported display mode: " ++ mode)%string).

(** ** Reading a trace *)

(** The collections of strokes drawn (those with a label), in order. *)
Definition drawn_layers (t : list event) : list MplLineCollection :=
  flat_map (fun e =>
              match e with
              | add_collection c =>
                  match label c with Some _ => [c] | None => [] end
              | _ => []
              end) t.

(** The collections of pen-up trajectories drawn (no label), in order. *)
Definition drawn_pen_ups (t : list event) : list MplLineCollection :=
  flat_map (fun e =>
              match e with
              | add_collection c =>
                  match label c with Some _ => [] | None => [c] end
              | _ => []
              end) t.

Definition warnings (t : list event) : list string :=
  flat_map (fun e =>
              match e with logging_warning msg => [msg] | _ => [] end) t.

Definition markups (t : list event) : list string :=
  flat_map (fun e => match e with display_html s => [s] | _ => [] end) t.

(** The calls on the matplotlib canvas. *)
Definition is_canvas_call (e : event) : bool :=
  match e with
  | logging_warning _ | display_html _ => false
  | _ => true
  end.

(** ** What the cursor does, as arithmetic *)

(** The cursor after a layer: one more per layer, or one more per path. *)
Definition advance (colorful : bool) (color_idx : nat)
    (lc : LineCollection) : nat :=
  (color_idx + (if colorful then List.length lc else 1))
    mod List.length COLORS.

Definition cursor_after (colorful : bool) (color_idx : nat)
    (items : list (Z * LineCollection)) : nat :=
  fold_left (fun c item => advance colorful c (snd item)) items color_idx.

(** The palette rotated to start at [color_idx]. *)
Definition rotated (color_idx : nat) : list rgb :=
  skipn color_idx COLORS ++ firstn color_idx COLORS.

Definition color_at (colorful : bool) (color_idx : nat) : color_arg :=
  if colorful then ColorList (rotated color_idx)
  else OneColor (nth color_idx COLORS (0, 0, 0)%float).

(** ** A host for the examples *)

(** Modelled from the spec: vpype's [Document.bounds()] is not part of this
    file; the spec describes it as the axis-aligned rectangle
    [(min-x, min-y, max-x, max-y)] of all the points of all the layers,
    absent when the document has no point. *)
Definition bounds_of_points (document : Document) : option (Bounds float) :=
  let fmin a b := if (b <? a)%float then b else a in
  let fmax a b := if (a <? b)%float then b else a in
  match List.concat (List.concat (map snd (layers document))) with
  | [] => None
  | p :: ps =>
      Some (fold_left
              (fun b q =>
                 (fmin (bounds_0 b) (real q), fmin (bounds_1 b) (imag q),
                  fmax (bounds_2 b) (real q), fmax (bounds_3 b) (imag q)))
              ps (real p, imag p, real p, imag p))
  end.

(** A plain script: pixels and centimetres are known units, no notebook, no
    IPython.  The examples do not read the digits of a printed float. *)
Definition script_host : Host :=
  {| convert_length := fun unit =>
       if (unit =? "px")%string then Ok 1%float
       else if (unit =? "cm")%string then Ok 37.795275590551178%float
       else Raise (ValueError "could not convert string to float");
     document_bounds := bounds_of_points;
     write_svg := fun _ _ _ _ _ => "<g/>";
     COLAB := false;
     JUPYTERLAB := false;
     get_svg_pan_zoom_url := "svg-pan-zoom.min.js";
     IPython_in_sys_modules := false;
     random_randint := fun lo _ => lo;
     str_float := fun _ => "x" |}.

(** The same inside a Jupyter notebook. *)
Definition notebook_host : Host :=
  {| convert_length := convert_length script_host;
     document_bounds := bounds_of_points;
     write_svg := write_svg script_host;
     COLAB := false;
     JUPYTERLAB := true;
     get_svg_pan_zoom_url := get_svg_pan_zoom_url script_host;
     IPython_in_sys_modules := true;
     random_randint := random_randint script_host;
     str_float := str_float script_host |}.

Definition pt (x y : float) : complex float := Complex x y.

(** The document of the spec's end-to-end example: one layer, two paths. *)
Definition two_paths : Document :=
  {| layers := [ (1%Z, [ [pt 0 0; pt 1 1]; [pt 2 2; pt 3 3] ]%float) ] |}.

(** Three layers with two, zero and one path. *)
Definition three_layers : Document :=
  {| layers := [ (1%Z, [ [pt 0 0; pt 1 1]; [pt 2 2; pt 3 3] ]%float);
                 (2%Z, []);
                 (5%Z, [ [pt 4 0; pt 4 4; pt 0 4] ]%float) ] |}.

(** ** Vocabulary of the properties *)

Definition pen_up_collection (segs : list (list vec2)) : MplLineCollection :=
  {| segments := segs;
     color := OneColor (0, 0, 0)%float;
     lw := 0.5%float;
     alpha := 0.5%float;
     label := None |}.

(** Where a point of the document lands on the canvas: the offset is added,
    then the sum is scaled. *)
Definition rendered (offset : complex float) (scale : float)
    (p : complex float) : vec2 :=
  ((real p + real offset) * scale, (imag p + imag offset) * scale)%float.

Definition origin : complex float := Complex 0%float 0%float.

(** The segment from the end of path [i] to the start of path [i + 1]. *)
Definition pen_up_at (offset : complex float) (scale : float)
    (lc : LineCollection) (i : nat) : list vec2 :=
  [ rendered offset scale (last (nth i lc []) origin);
    rendered offset scale (hd origin (nth (i + 1) lc [])) ].

Definition paths_nonempty (items : list (Z * LineCollection)) : Prop :=
  Forall (fun item => Forall (fun path : Path => path <> []) (snd item)) items.

(** Lines 120-127: the calls that show or hide the axes and the grid. *)
Definition axes_and_grid (show_axes show_grid : bool) (unit : string)
    : list event :=
  (if show_axes || show_grid then
     [ plt_axis "on";
       plt_xlabel ("[" ++ unit ++ "]")%string;
       plt_ylabel ("[" ++ unit ++ "]")%string ]
   else [ plt_axis "off" ])
  ++ (if show_grid then [ plt_grid "on" ] else []).

(** The centre of the bounds and the centre of the page, as the spec's
    centring property names them. *)
Definition bounds_center {N} `{Arith N} (b : Bounds N) : complex N :=
  Complex (n_div (n_add (bounds_0 b) (bounds_2 b)) n_two)
          (n_div (n_add (bounds_1 b) (bounds_3 b)) n_two).

Definition page_center {N} `{Arith N} (page_size : N * N) : complex N :=
  Complex (n_div (fst page_size) n_two) (n_div (snd page_size) n_two).

(** The calls that decide whether the axes are shown. *)
Definition axes_calls (t : list event) : list event :=
  filter (fun e =>
            match e with
            | plt_axis _ | plt_xlabel _ | plt_ylabel _ => true
            | _ => false
            end) t.

Definition grid_calls (t : list event) : list event :=
  filter (fun e => match e with plt_grid _ => true | _ => false end) t.

(** The default values of the keyword arguments of [display]. *)
Module Default.
Definition center : bool := false.
Definition show_axes : bool := true.
Definition show_grid : bool := false.
Definition show_pen_up : bool := false.
Definition color_mode : string := "layer".
Definition unit : string := "px".
Definition mode : option string := None.
Definition fig_size : option (float * float) := None.
End Default.

(** The path counts of the layers, in order. *)
Definition path_counts (items : list (Z * LineCollection)) : list nat :=
  map (fun item => List.length (snd item)) items.

(** A drawing whose bounds are [(0.2, 0.2, 0.5, 0.5)]. *)
Definition small_square : Document :=
  {| layers := [ (1%Z, [ [pt 0.2 0.2; pt 0.5 0.2; pt 0.5 0.5; pt 0.2 0.5] ]%float) ] |}.

(** Ten layers of one path each, numbered from 1. *)
Definition ten_layers : Document :=
  {| layers :=
       map (fun n => (Z.of_nat n, [ [pt 0 0; pt 1 1] ]%float)) (seq 1 10) |}.

(** Layers of three, six and one path; and layers with the same counts for
    the first two layers only. *)
Definition dashes (n : nat) : LineCollection :=
  map (fun i => [pt 0 0; pt 1 0]%float) (seq 0 n).

Definition counts_3_6_1 : Document :=
  {| layers := [ (1%Z, dashes 3); (2%Z, dashes 6); (3%Z, dashes 1) ] |}.

Definition counts_3_6_4_2 : Document :=
  {| layers := [ (7%Z, dashes 3); (8%Z, dashes 6); (9%Z, dashes 4);
                 (10%Z, dashes 2) ] |}.

Definition no_collection : MplLineCollection :=
  {| segments := [];
     color := ColorList [];
     lw := 0%float;
     alpha := 0%float;
     label := None |}.

(** The warnings of lines 252-262, in the order the tests are made. *)
Definition option_warnings (show_axes show_grid : bool) (unit : string)
    (fig_size : option (float * float)) : list string :=
  (if show_axes
   then ["show_axis is not supported by the IPython display mode"] else [])
  ++ (if show_grid
      then ["show_grid is not supported by the IPython display mode"] else [])
  ++ (if (unit =? "px")%string
      then []
      else ["custom units are not supported by the IPython display mode"])
  ++ (match fig_size with
      | Some _ =>
          ["setting fig_size is not supported by the IPython display mode"]
      | None => []
      end).

Definition outside_of_IPython : exn :=
  RuntimeError "IPython display cannot be used outside of IPython".

(** ** Vocabulary of the further properties *)

(** Lines 103-106: the pair the pen-up generator yields for the index [i]. *)
Definition pen_up_pair (lc : LineCollection) (offset_ndarr : vec2)
    (scale : float) (i : nat) : result (list vec2) :=
  rbind (py_index lc i) (fun a =>
  rbind (py_last (as_vector a)) (fun p =>
  rbind (py_index lc (i + 1)) (fun b =>
  rbind (py_first (as_vector b)) (fun q =>
  Ok [ vscale (vadd p offset_ndarr) scale;
       vscale (vadd q offset_ndarr) scale ])))).

(** A layer whose pen-up trajectories cannot be computed: at least two
    paths, one of them without a point. *)
Definition broken_layer (lc : LineCollection) : Prop :=
  2 <= List.length lc /\ Exists (fun path : Path => path = []) lc.

Definition is_plt_show (e : event) : bool :=
  match e with plt_show => true | _ => false end.

(** Equality of two colours, component by component. *)
Definition rgb_eqb (a b : rgb) : bool :=
  let '(r1, g1, b1) := a in
  let '(r2, g2, b2) := b in
  (PrimFloat.eqb r1 r2 && PrimFloat.eqb g1 g2 && PrimFloat.eqb b1 b2)%bool.

(** A host on which every unit has length zero, as vpype's
    [convert_length] has for a string such as ["0cm"]. *)
Definition zero_unit_host : Host :=
  {| convert_length := fun _ => Ok 0%float;
     document_bounds := bounds_of_points;
     write_svg := write_svg script_host;
     COLAB := false;
     JUPYTERLAB := false;
     get_svg_pan_zoom_url := get_svg_pan_zoom_url script_host;
     IPython_in_sys_modules := false;
     random_randint := random_randint script_host;
     str_float := str_float script_host |}.

(** A sound layer followed by a layer of two paths, the second one without
    a point, and by a third layer. *)
Definition with_empty_path : Document :=
  {| layers := [ (1%Z, [ [pt 0 0; pt 1 1]; [pt 2 2; pt 3 3] ]%float);
                 (2%Z, [ [pt 4 4; pt 5 5]; [] ]%float);
                 (3%Z, [ [pt 6 6] ]%float) ] |}.

(** The element id of the preview and the SVG body written by vpype, as
    [display_ipython] computes them (lines 147-155 and 184). *)
Definition svg_id_of (host : Host) : string :=
  ("svg_display_" ++ str_int (random_randint host 0 10000))%string.

Definition svg_body_of (host : Host) (document : Document)
    (page_size : option (float * float)) (center show_pen_up : bool)
    (color_mode : string) : string :=
  write_svg host document
    (match page_size with
     | Some page_size => page_size
     | None => (0, 0)%float
     end)
    center show_pen_up color_mode.

(** * Properties *)

(** ** The trace monad *)

Lemma trace_bind {A B} (m : M A) (f : A -> M B) :
  trace (bind m f) =
  trace m ++ match outcome m with
             | Ok a => trace (f a)
             | Raise _ => []
             end.
Proof.
  destruct m as [t [a | e]]; cbn.
  - destruct (f a); reflexivity.
  - now rewrite app_nil_r.
Qed.

Lemma outcome_bind {A B} (m : M A) (f : A -> M B) :
  outcome (bind m f) =
  match outcome m with
  | Ok a => outcome (f a)
  | Raise e => Raise e
  end.
Proof.
  destruct m as [t [a | e]]; cbn; [destruct (f a) |]; reflexivity.
Qed.

Lemma drawn_layers_app (t u : list event) :
  drawn_layers (t ++ u) = drawn_layers t ++ drawn_layers u.
Proof. apply flat_map_app. Qed.

Lemma drawn_pen_ups_app (t u : list event) :
  drawn_pen_ups (t ++ u) = drawn_pen_ups t ++ drawn_pen_ups u.
Proof. apply flat_map_app. Qed.

Lemma warnings_app (t u : list event) :
  warnings (t ++ u) = warnings t ++ warnings u.
Proof. apply flat_map_app. Qed.

(** ** The cursor *)

Lemma COLORS_length : List.length COLORS = 8.
Proof. reflexivity. Qed.

Lemma advance_lt (colorful : bool) (c : nat) (lc : LineCollection) :
  advance colorful c lc < 8.
Proof. unfold advance. rewrite COLORS_length. apply Nat.mod_upper_bound. lia. Qed.

(** Lines 77-86 as arithmetic: a cursor below 8 picks [color_at] and moves
    to [advance]. *)
Lemma pick_color_advance (colorful : bool) (c : nat) (lc : LineCollection) :
  c < 8 ->
  pick_color colorful c lc = Ok (color_at colorful c, advance colorful c lc).
Proof.
  intros Hc. unfold pick_color, color_at, advance, rotated.
  rewrite COLORS_length.
  destruct colorful; cbn [rbind].
  - destruct (Nat.leb_spec 8 (c + List.length lc)) as [Hge | Hlt].
    + reflexivity.
    + now rewrite (Nat.mod_small _ _ Hlt).
  - unfold py_index.
    destruct (nth_error COLORS c) as [x |] eqn:Hx.
    + cbn [rbind]. rewrite (nth_error_nth _ _ _ Hx).
      destruct (Nat.leb_spec 8 (c + 1)) as [Hge | Hlt].
      * reflexivity.
      * now rewrite (Nat.mod_small _ _ Hlt).
    + apply nth_error_None in Hx. rewrite COLORS_length in Hx. lia.
Qed.

Lemma cursor_after_lt (colorful : bool) (items : list (Z * LineCollection)) :
  forall c, c < 8 -> cursor_after colorful c items < 8.
Proof.
  induction items as [| item items IH]; intros c Hc; cbn.
  - exact Hc.
  - apply IH, advance_lt.
Qed.

Lemma cursor_after_layer (items : list (Z * LineCollection)) :
  forall c, c < 8 ->
  cursor_after false c items = (c + List.length items) mod 8.
Proof.
  induction items as [| item items IH]; intros c Hc.
  - change (cursor_after false c []) with c. cbn [List.length map list_sum].
    rewrite Nat.add_0_r. symmetry. now apply Nat.mod_small.
  - change (cursor_after false c (item :: items))
      with (cursor_after false (advance false c (snd item)) items).
    rewrite IH by apply advance_lt.
    unfold advance. rewrite COLORS_length. cbn [List.length].
    rewrite Nat.Div0.add_mod_idemp_l. f_equal. lia.
Qed.

Lemma cursor_after_path (items : list (Z * LineCollection)) :
  forall c, c < 8 ->
  cursor_after true c items =
  (c + list_sum (map (fun item => List.length (snd item)) items)) mod 8.
Proof.
  induction items as [| item items IH]; intros c Hc.
  - change (cursor_after true c []) with c. cbn [List.length map list_sum].
    rewrite Nat.add_0_r. symmetry. now apply Nat.mod_small.
  - change (cursor_after true c (item :: items))
      with (cursor_after true (advance true c (snd item)) items).
    rewrite IH by apply advance_lt.
    unfold advance. rewrite COLORS_length. cbn [map list_sum].
    rewrite Nat.Div0.add_mod_idemp_l. f_equal. unfold list_sum. cbn [fold_right]. symmetry. apply Nat.add_assoc.
Qed.

Lemma rotated_length (c : nat) : List.length (rotated c) = 8.
Proof.
  unfold rotated. rewrite length_app, length_skipn, length_firstn, COLORS_length.
  lia.
Qed.

Lemma rotated_nth (c j : nat) :
  c < 8 -> j < 8 ->
  nth_error (rotated c) j = nth_error COLORS ((c + j) mod 8).
Proof.
  intros Hc Hj.
  do 8 (destruct c as [| c]; [do 8 (destruct j as [| j]; [reflexivity |]); lia |]).
  lia.
Qed.

(** ** The loop over the layers *)

Lemma bind_lift_Ok {A B} (a : A) (f : A -> M B) : bind (lift (Ok a)) f = f a.
Proof. unfold bind, lift. now destruct (f a). Qed.

Lemma trace_emit_bind {B} (e : event) (f : Datatypes.unit -> M B) :
  trace (bind (emit e) f) = e :: trace (f tt).
Proof. unfold bind, emit. now destruct (f tt). Qed.

Lemma outcome_emit_bind {B} (e : event) (f : Datatypes.unit -> M B) :
  outcome (bind (emit e) f) = outcome (f tt).
Proof. unfold bind, emit. now destruct (f tt). Qed.

Lemma trace_pen_up_lines offset scale lc :
  trace (pen_up_lines offset scale lc) =
  match pen_up_segments lc (real offset, imag offset) scale with
  | Ok segs => [add_collection (pen_up_collection segs)]
  | Raise _ => []
  end.
Proof.
  unfold pen_up_lines.
  now destruct (pen_up_segments lc (real offset, imag offset) scale).
Qed.

Lemma outcome_pen_up_lines offset scale lc :
  outcome (pen_up_lines offset scale lc) =
  match pen_up_segments lc (real offset, imag offset) scale with
  | Ok _ => Ok tt
  | Raise e => Raise e
  end.
Proof.
  unfold pen_up_lines.
  now destruct (pen_up_segments lc (real offset, imag offset) scale).
Qed.

Lemma drawn_layers_pen_up show_pen_up offset scale lc :
  drawn_layers (trace (when show_pen_up (pen_up_lines offset scale lc))) = [].
Proof.
  destruct show_pen_up; [| reflexivity].
  cbn [when]. rewrite trace_pen_up_lines.
  now destruct (pen_up_segments lc (real offset, imag offset) scale).
Qed.

(** One turn of the loop, read through [drawn_layers]. *)
Lemma drawn_layers_plot_cons offset scale show_pen_up colorful
    layer_id lc items c :
  c < 8 ->
  drawn_layers
    (trace (plot_layers offset scale show_pen_up colorful
              ((layer_id, lc) :: items) c)) =
  layer_lines offset scale layer_id lc (color_at colorful c)
  :: match outcome (when show_pen_up (pen_up_lines offset scale lc)) with
     | Ok _ =>
         drawn_layers
           (trace (plot_layers offset scale show_pen_up colorful items
                     (advance colorful c lc)))
     | Raise _ => []
     end.
Proof.
  intros Hc. cbn [plot_layers].
  rewrite (pick_color_advance colorful c lc Hc), bind_lift_Ok.
  rewrite trace_emit_bind. cbn [drawn_layers flat_map fst snd].
  fold (drawn_layers
          (trace (bind (when show_pen_up (pen_up_lines offset scale lc))
                       (fun _ => plot_layers offset scale show_pen_up colorful
                                   items (advance colorful c lc))))).
  rewrite trace_bind, drawn_layers_app, drawn_layers_pen_up.
  cbn [layer_lines label app]. f_equal.
  now destruct (outcome (when show_pen_up (pen_up_lines offset scale lc)))
    as [[] |].
Qed.

(** The [k]-th collection of strokes drawn is the [k]-th layer of the
    document, with the colour the cursor selects after the layers before
    it. *)
Lemma plot_layers_nth offset scale show_pen_up colorful items :
  forall c k col,
    c < 8 ->
    nth_error
      (drawn_layers
         (trace (plot_layers offset scale show_pen_up colorful items c))) k
    = Some col ->
    exists layer_id lc,
      nth_error items k = Some (layer_id, lc) /\
      col = layer_lines offset scale layer_id lc
              (color_at colorful (cursor_after colorful c (firstn k items))).
Proof.
  induction items as [| [layer_id lc] items IH]; intros c k col Hc Hk.
  - destruct k; discriminate Hk.
  - rewrite drawn_layers_plot_cons in Hk by exact Hc.
    destruct k as [| k].
    + injection Hk as <-. now exists layer_id, lc.
    + cbn [nth_error] in Hk.
      destruct (outcome (when show_pen_up (pen_up_lines offset scale lc))).
      * apply IH in Hk; [| apply advance_lt].
        destruct Hk as (id' & lc' & Hnth & ->).
        now exists id', lc'.
      * destruct k; discriminate Hk.
Qed.

Lemma outcome_plot_cons offset scale show_pen_up colorful layer_id lc items c :
  c < 8 ->
  outcome (plot_layers offset scale show_pen_up colorful
             ((layer_id, lc) :: items) c) =
  match outcome (when show_pen_up (pen_up_lines offset scale lc)) with
  | Ok _ =>
      outcome (plot_layers offset scale show_pen_up colorful items
                 (advance colorful c lc))
  | Raise e => Raise e
  end.
Proof.
  intros Hc. cbn [plot_layers].
  rewrite (pick_color_advance colorful c lc Hc), bind_lift_Ok.
  rewrite outcome_emit_bind, outcome_bind. reflexivity.
Qed.

(** A loop that ends normally has drawn every layer. *)
Lemma plot_layers_complete offset scale show_pen_up colorful items :
  forall c,
    c < 8 ->
    outcome (plot_layers offset scale show_pen_up colorful items c) = Ok tt ->
    List.length
      (drawn_layers
         (trace (plot_layers offset scale show_pen_up colorful items c)))
    = List.length items.
Proof.
  induction items as [| [layer_id lc] items IH]; intros c Hc Hok.
  - reflexivity.
  - rewrite drawn_layers_plot_cons by exact Hc.
    rewrite outcome_plot_cons in Hok by exact Hc.
    destruct (outcome (when show_pen_up (pen_up_lines offset scale lc)));
      [| discriminate Hok].
    cbn [List.length]. f_equal. apply IH; [apply advance_lt | exact Hok].
Qed.

(** ** Pen-up trajectories *)

Lemma stroke_rendered offset scale (line : Path) :
  stroke offset scale line = map (rendered offset scale) line.
Proof.
  unfold stroke, as_vector. rewrite !map_map. reflexivity.
Qed.

Lemma mapR_Ok {A B} (f : A -> result B) (g : A -> B) (l : list A) :
  (forall x, In x l -> f x = Ok (g x)) -> mapR f l = Ok (map g l).
Proof.
  induction l as [| x l IH]; intros Hf; cbn [mapR map].
  - reflexivity.
  - rewrite (Hf x (or_introl eq_refl)). cbn [rbind].
    rewrite IH by (intros y Hy; apply Hf; now right).
    reflexivity.
Qed.

Lemma py_last_nonempty {A} (d : A) (a : list A) :
  a <> [] -> py_last a = Ok (last a d).
Proof.
  intros Ha. destruct (exists_last Ha) as (l & x & ->).
  unfold py_last. rewrite rev_app_distr. cbn. now rewrite last_last.
Qed.

Lemma py_first_nonempty {A} (d : A) (a : list A) :
  a <> [] -> py_first a = Ok (hd d a).
Proof. destruct a; [congruence | reflexivity]. Qed.

Lemma py_last_map {A B} (f : A -> B) (a : list A) (x : A) :
  py_last a = Ok x -> py_last (map f a) = Ok (f x).
Proof.
  unfold py_last. rewrite <- map_rev.
  destruct (rev a); intros H; [discriminate | now injection H as ->].
Qed.

Lemma py_first_map {A B} (f : A -> B) (a : list A) (x : A) :
  py_first a = Ok x -> py_first (map f a) = Ok (f x).
Proof.
  destruct a; intros H; [discriminate | now injection H as ->].
Qed.

Lemma pen_up_segments_Ok offset scale (lc : LineCollection) :
  Forall (fun path : Path => path <> []) lc ->
  pen_up_segments lc (real offset, imag offset) scale =
  Ok (map (pen_up_at offset scale lc) (seq 0 (List.length lc - 1))).
Proof.
  intros Hne. unfold pen_up_segments. apply mapR_Ok.
  intros i Hi. apply in_seq in Hi.
  assert (Hi0 : i < List.length lc) by lia.
  assert (Hi1 : i + 1 < List.length lc) by lia.
  rewrite Forall_forall in Hne.
  unfold py_index.
  rewrite (nth_error_nth' lc [] Hi0), (nth_error_nth' lc [] Hi1).
  cbn [rbind].
  assert (Ha : nth i lc [] <> []) by (apply Hne, nth_In, Hi0).
  assert (Hb : nth (i + 1) lc [] <> []) by (apply Hne, nth_In, Hi1).
  unfold as_vector.
  rewrite (py_last_map _ _ _ (py_last_nonempty origin _ Ha)). cbn [rbind].
  rewrite (py_first_map _ _ _ (py_first_nonempty origin _ Hb)). cbn [rbind].
  reflexivity.
Qed.

Lemma drawn_pen_ups_plot_cons offset scale show_pen_up colorful
    layer_id lc items c :
  c < 8 ->
  drawn_pen_ups
    (trace (plot_layers offset scale show_pen_up colorful
              ((layer_id, lc) :: items) c)) =
  drawn_pen_ups (trace (when show_pen_up (pen_up_lines offset scale lc)))
  ++ match outcome (when show_pen_up (pen_up_lines offset scale lc)) with
     | Ok _ =>
         drawn_pen_ups
           (trace (plot_layers offset scale show_pen_up colorful items
                     (advance colorful c lc)))
     | Raise _ => []
     end.
Proof.
  intros Hc. cbn [plot_layers].
  rewrite (pick_color_advance colorful c lc Hc), bind_lift_Ok.
  rewrite trace_emit_bind. cbn [drawn_pen_ups flat_map fst snd].
  fold (drawn_pen_ups
          (trace (bind (when show_pen_up (pen_up_lines offset scale lc))
                       (fun _ => plot_layers offset scale show_pen_up colorful
                                   items (advance colorful c lc))))).
  rewrite trace_bind, drawn_pen_ups_app.
  cbn [layer_lines label app]. f_equal.
  now destruct (outcome (when show_pen_up (pen_up_lines offset scale lc)))
    as [[] |].
Qed.


Lemma plot_layers_Ok offset scale show_pen_up colorful items :
  forall c,
    c < 8 ->
    show_pen_up = false \/ paths_nonempty items ->
    outcome (plot_layers offset scale show_pen_up colorful items c) = Ok tt.
Proof.
  induction items as [| [id0 lc0] items IH]; intros c Hc Hne.
  - reflexivity.
  - rewrite outcome_plot_cons by exact Hc.
    assert (Hstep :
      outcome (when show_pen_up (pen_up_lines offset scale lc0)) = Ok tt).
    { destruct Hne as [-> | Hne]; [reflexivity |].
      destruct show_pen_up; [| reflexivity].
      inversion Hne as [| ? ? Hne0 _]; subst. cbn [snd] in Hne0.
      cbn [when]. rewrite outcome_pen_up_lines.
      now rewrite (pen_up_segments_Ok offset scale lc0 Hne0). }
    rewrite Hstep. apply IH; [apply advance_lt |].
    destruct Hne as [-> | Hne]; [now left | right].
    now inversion Hne.
Qed.

(** ** The raster renderer as a whole *)

(** An unknown unit, or a unit of length zero, ends the call before any
    drawing. *)
Lemma display_matplotlib_no_scale host document page_size
    center show_axes show_grid show_pen_up colorful unit fig_size e :
  rbind (convert_length host unit) (py_div 1%float) = Raise e ->
  display_matplotlib host document page_size center show_axes show_grid
    show_pen_up colorful unit fig_size = ([], Raise e).
Proof.
  unfold display_matplotlib.
  destruct (convert_length host unit) as [f | e']; cbn [rbind]; intros H.
  - rewrite bind_lift_Ok, H. reflexivity.
  - now injection H as ->.
Qed.

(** With a scale, the call is: figure, clear, page, layers, axes, show. *)
Lemma display_matplotlib_run host document page_size
    center show_axes show_grid show_pen_up colorful unit fig_size scale :
  rbind (convert_length host unit) (py_div 1%float) = Ok scale ->
  let body :=
    plot_layers
      (compute_offset center page_size (document_bounds host document))
      scale show_pen_up colorful (layers document) 0 in
  display_matplotlib host document page_size center show_axes show_grid
    show_pen_up colorful unit fig_size =
  ((match fig_size with Some fs => [plt_figure fs] | None => [] end)
   ++ plt_cla :: trace (draw_page page_size scale)
   ++ trace body
   ++ match outcome body with
      | Ok _ =>
          invert_yaxis :: plt_axis "equal" :: plt_margins 0%float 0%float
          :: axes_and_grid show_axes show_grid unit ++ [plt_show]
      | Raise _ => []
      end,
   outcome body).
Proof.
  intros H body. unfold display_matplotlib.
  destruct (convert_length host unit) as [f | e']; cbn [rbind] in H;
    [| discriminate H].
  rewrite bind_lift_Ok, H, bind_lift_Ok. fold body.
  destruct body as [t [[] | e]];
    destruct fig_size, page_size, show_axes, show_grid;
    cbn [trace outcome fst snd]; rewrite ?app_nil_r; reflexivity.
Qed.

Lemma plot_layers_draws_only offset scale show_pen_up colorful items :
  forall c,
    Forall (fun e => exists col, e = add_collection col)
           (trace (plot_layers offset scale show_pen_up colorful items c)).
Proof.
  induction items as [| [layer_id lc] items IH]; intros c; cbn [plot_layers].
  - constructor.
  - destruct (pick_color colorful c lc) as [cc | e].
    + rewrite bind_lift_Ok, trace_emit_bind, trace_bind.
      constructor; [now eexists |].
      apply Forall_app. split.
      * destruct show_pen_up; cbn [when]; [| constructor].
        rewrite trace_pen_up_lines.
        destruct (pen_up_segments lc _ scale); repeat constructor.
        now eexists.
      * destruct (outcome (when show_pen_up (pen_up_lines offset scale lc)));
          [apply IH | constructor].
    + constructor.
Qed.

Lemma drawn_layers_draw_page page_size scale :
  drawn_layers (trace (draw_page page_size scale)) = [].
Proof. now destruct page_size. Qed.

Lemma drawn_pen_ups_draw_page page_size scale :
  drawn_pen_ups (trace (draw_page page_size scale)) = [].
Proof. now destruct page_size. Qed.

Lemma drawn_layers_display_matplotlib host document page_size
    center show_axes show_grid show_pen_up colorful unit fig_size scale :
  rbind (convert_length host unit) (py_div 1%float) = Ok scale ->
  drawn_layers
    (trace (display_matplotlib host document page_size center show_axes
              show_grid show_pen_up colorful unit fig_size)) =
  drawn_layers
    (trace (plot_layers
              (compute_offset center page_size
                 (document_bounds host document))
              scale show_pen_up colorful (layers document) 0)).
Proof.
  intros H. rewrite (display_matplotlib_run _ _ _ _ _ _ _ _ _ _ _ H).
  cbn [trace fst]. rewrite drawn_layers_app.
  change (plt_cla :: ?l) with ([plt_cla] ++ l).
  rewrite !drawn_layers_app, drawn_layers_draw_page.
  replace (drawn_layers (match fig_size with
                         | Some fs => [plt_figure fs]
                         | None => []
                         end)) with (@nil MplLineCollection)
    by now destruct fig_size.
  match goal with
  | |- context [drawn_layers (match ?o with Ok _ => ?l | Raise _ => [] end)] =>
      replace (drawn_layers (match o with Ok _ => l | Raise _ => [] end))
        with (@nil MplLineCollection)
        by (destruct o; [destruct show_axes, show_grid |]; reflexivity)
  end.
  cbn [drawn_layers flat_map app]. now rewrite app_nil_r.
Qed.

Lemma drawn_pen_ups_display_matplotlib host document page_size
    center show_axes show_grid show_pen_up colorful unit fig_size scale :
  rbind (convert_length host unit) (py_div 1%float) = Ok scale ->
  drawn_pen_ups
    (trace (display_matplotlib host document page_size center show_axes
              show_grid show_pen_up colorful unit fig_size)) =
  drawn_pen_ups
    (trace (plot_layers
              (compute_offset center page_size
                 (document_bounds host document))
              scale show_pen_up colorful (layers document) 0)).
Proof.
  intros H. rewrite (display_matplotlib_run _ _ _ _ _ _ _ _ _ _ _ H).
  cbn [trace fst]. rewrite drawn_pen_ups_app.
  change (plt_cla :: ?l) with ([plt_cla] ++ l).
  rewrite !drawn_pen_ups_app, drawn_pen_ups_draw_page.
  replace (drawn_pen_ups (match fig_size with
                          | Some fs => [plt_figure fs]
                          | None => []
                          end)) with (@nil MplLineCollection)
    by now destruct fig_size.
  match goal with
  | |- context [drawn_pen_ups (match ?o with Ok _ => ?l | Raise _ => [] end)] =>
      replace (drawn_pen_ups (match o with Ok _ => l | Raise _ => [] end))
        with (@nil MplLineCollection)
        by (destruct o; [destruct show_axes, show_grid |]; reflexivity)
  end.
  cbn [drawn_pen_ups flat_map app]. now rewrite app_nil_r.
Qed.

(** Nothing is drawn without a scale. *)
Lemma drawn_layers_display_matplotlib_inv host document page_size
    center show_axes show_grid show_pen_up colorful unit fig_size k col :
  nth_error
    (drawn_layers
       (trace (display_matplotlib host document page_size center show_axes
                 show_grid show_pen_up colorful unit fig_size))) k
  = Some col ->
  exists scale,
    rbind (convert_length host unit) (py_div 1%float) = Ok scale.
Proof.
  destruct (rbind (convert_length host unit) (py_div 1%float))
    as [scale | e] eqn:H; intros Hk.
  - now exists scale.
  - rewrite (display_matplotlib_no_scale _ _ _ _ _ _ _ _ _ _ _ H) in Hk.
    destruct k; discriminate Hk.
Qed.

(** * The claims *)

(** ** Centring (C1) *)

Lemma compute_offset_exact (P : Q * Q) (b : Bounds Q) :
  let o := compute_offset true (Some P) (Some b) in
  (real (cadd (bounds_center b) o) == real (page_center P))%Q /\
  (imag (cadd (bounds_center b) o) == imag (page_center P))%Q.
Proof.
  destruct P as [pw ph], b as [[[x0 y0] x1] y1].
  cbn. split; field.
Qed.

(** C1, as stated, fails on the floats the program computes with: for the
    page [(1, 1)] and a drawing of bounds [(0.2, 0.2, 0.5, 0.5)] the centre
    of the bounds plus the offset is [0.49999999999999994], not the centre
    [0.5] of the page. *)
Lemma centre_identity_fails_on_floats :
  document_bounds script_host small_square
  = Some (0.2, 0.2, 0.5, 0.5)%float /\
  let b := (0.2, 0.2, 0.5, 0.5)%float in
  let o := compute_offset true (Some (1, 1)%float) (Some b) in
  o = Complex 0.14999999999999997%float 0.14999999999999997%float /\
  PrimFloat.eqb (real (cadd (bounds_center b) o))
                (real (page_center (1, 1)%float)) = false /\
  cadd (bounds_center b) o <> page_center (1, 1)%float.
Proof.
  split; [vm_compute; reflexivity |].
  split; [vm_compute; reflexivity |].
  split; [vm_compute; reflexivity |].
  intros H.
  apply (f_equal (fun c => PrimFloat.eqb (real c) 0.5%float)) in H.
  vm_compute in H. discriminate H.
Qed.

(** C1 (amended).  The offset the raster renderer adds to every point is
    [compute_offset center page_size (document.bounds())]: with centring
    on, a page size and bounds it is
    [((pw - (xmax - xmin)) / 2 - xmin, (ph - (ymax - ymin)) / 2 - ymin)],
    computed in binary64 arithmetic, and it is exactly [(0, 0)] when
    [center] is false, when there is no page size, or when there are no
    bounds.  The identity "centre of the bounds + offset = centre of the
    page" holds for the same formula in exact (rational) arithmetic; on
    floats it holds up to rounding only. *)
Theorem offset_centres_the_bounds :
  (forall (pw ph : float) (b : Bounds float),
      compute_offset true (Some (pw, ph)) (Some b) =
      Complex ((pw - (bounds_2 b - bounds_0 b)) / 2 - bounds_0 b)%float
              ((ph - (bounds_3 b - bounds_1 b)) / 2 - bounds_1 b)%float) /\
  (forall page_size (bounds : option (Bounds float)),
      compute_offset false page_size bounds = Complex 0%float 0%float) /\
  (forall center (bounds : option (Bounds float)),
      compute_offset center None bounds = Complex 0%float 0%float) /\
  (forall center (page_size : option (float * float)),
      compute_offset center page_size None = Complex 0%float 0%float) /\
  (forall (P : Q * Q) (b : Bounds Q),
      let o := compute_offset true (Some P) (Some b) in
      (real (cadd (bounds_center b) o) == real (page_center P))%Q /\
      (imag (cadd (bounds_center b) o) == imag (page_center P))%Q) /\
  (forall host document page_size center show_axes show_grid show_pen_up
          colorful unit fig_size k col,
      nth_error
        (drawn_layers
           (trace (display_matplotlib host document page_size center
                     show_axes show_grid show_pen_up colorful unit fig_size)))
        k = Some col ->
      exists layer_id lc scale,
        nth_error (layers document) k = Some (layer_id, lc) /\
        rbind (convert_length host unit) (py_div 1%float) = Ok scale /\
        segments col =
        map (map (rendered
                    (compute_offset center page_size
                       (document_bounds host document))
                    scale)) lc).
Proof.
  split; [reflexivity |].
  split; [reflexivity |].
  split; [now intros [] |].
  split; [now intros [] [] |].
  split; [exact compute_offset_exact |].
  intros host document page_size center show_axes show_grid show_pen_up
    colorful unit fig_size k col Hk.
  destruct (drawn_layers_display_matplotlib_inv _ _ _ _ _ _ _ _ _ _ _ _ Hk)
    as [scale Hscale].
  rewrite (drawn_layers_display_matplotlib _ _ _ _ _ _ _ _ _ _ _ Hscale) in Hk.
  apply plot_layers_nth in Hk; [| lia].
  destruct Hk as (layer_id & lc & Hnth & ->).
  exists layer_id, lc, scale. repeat split; try assumption.
  cbn [layer_lines segments].
  apply map_ext. intros line. apply stroke_rendered.
Qed.

(** The spec's worked example: a page of [(10, 10)] pixels and bounds
    [(0, 0, 3, 3)] give the offset [(3.5, 3.5)], and the first point of the
    first path is drawn at [(3.5, 3.5)]. *)
Lemma offset_centres_the_bounds_example :
  exists layer_id lc scale,
    nth_error (layers two_paths) 0 = Some (layer_id, lc) /\
    rbind (convert_length script_host "px") (py_div 1%float) = Ok scale /\
    segments (layer_lines (Complex 3.5 3.5)%float 1%float 1%Z
                [ [pt 0 0; pt 1 1]; [pt 2 2; pt 3 3] ]%float
                (OneColor (0, 0, 1)%float)) =
    map (map (rendered
                (compute_offset true (Some (10, 10)%float)
                   (document_bounds script_host two_paths))
                scale)) lc.
Proof.
  destruct offset_centres_the_bounds as (_ & _ & _ & _ & _ & H).
  apply (H script_host two_paths (Some (10, 10)%float) true true false false
           false "px" None 0).
  vm_compute. reflexivity.
Defined.

(** ** Colour mode [none] (C2) *)

(** C2 does not hold for the raster renderer: [display] hands it
    [colorful = (color_mode == "path")] only, so the mode [none] runs exactly
    as the mode [layer].  On a document of three layers the layers come out
    blue, green and red, and the cursor has moved on after each of them. *)
Theorem none_mode_runs_as_layer_mode :
  (forall host document page_size center show_axes show_grid show_pen_up
          unit fig_size,
      display host document page_size center show_axes show_grid show_pen_up
        "none" unit (Some "matplotlib") fig_size =
      display host document page_size center show_axes show_grid show_pen_up
        "layer" unit (Some "matplotlib") fig_size) /\
  map color
    (drawn_layers
       (trace (display script_host three_layers None false true false false
                 "none" "px" (Some "matplotlib") None))) =
  [ OneColor (0, 0, 1)%float;
    OneColor (0, 0.5, 0)%float;
    OneColor (1, 0, 0)%float ] /\
  cursor_after ("none" =? "path")%string 0 (layers three_layers) = 3.
Proof.
  split; [reflexivity |].
  split; vm_compute; reflexivity.
Qed.

(** ** Pen-up trajectories (C3) *)




(** ** Colour mode [layer] (C4) *)

Lemma color_at_layer (k : nat) :
  exists c, nth_error COLORS (k mod 8) = Some c /\
            color_at false (k mod 8) = OneColor c.
Proof.
  assert (Hk : k mod 8 < List.length COLORS)
    by (rewrite COLORS_length; apply Nat.mod_upper_bound; lia).
  exists (nth (k mod 8) COLORS (0, 0, 0)%float).
  split; [now apply nth_error_nth' | reflexivity].
Qed.

(** C4.  In the raster renderer, colour mode [layer]: the [k]-th collection
    of strokes drawn holds the paths of the [k]-th layer and has the single
    colour [COLORS[k mod 8]]; a call that ends normally has drawn every
    layer; and a second call, made after the first, draws the same colours
    again, the cursor starting afresh. *)
Theorem layer_mode_colors
    host document page_size center show_axes show_grid show_pen_up unit
    fig_size :
  let run :=
    display host document page_size center show_axes show_grid show_pen_up
      "layer" unit (Some "matplotlib") fig_size in
  (forall k col,
      nth_error (drawn_layers (trace run)) k = Some col ->
      exists layer_id lc c,
        nth_error (layers document) k = Some (layer_id, lc) /\
        nth_error COLORS (k mod 8) = Some c /\
        color col = OneColor c /\
        List.length (segments col) = List.length lc) /\
  (outcome run = Ok tt ->
   List.length (drawn_layers (trace run)) = List.length (layers document) /\
   map color (drawn_layers (trace (run ;; run))) =
   map color (drawn_layers (trace run))
   ++ map color (drawn_layers (trace run))).
Proof.
  intros run.
  change run with
    (display_matplotlib host document page_size center show_axes show_grid
       show_pen_up false unit fig_size).
  clear run. split.
  - intros k col Hk.
    destruct (drawn_layers_display_matplotlib_inv _ _ _ _ _ _ _ _ _ _ _ _ Hk)
      as [scale Hscale].
    rewrite (drawn_layers_display_matplotlib _ _ _ _ _ _ _ _ _ _ _ Hscale)
      in Hk.
    destruct (plot_layers_nth _ _ _ _ _ 0 _ _ ltac:(lia) Hk)
      as (layer_id & lc & Hnth & ->).
    rewrite cursor_after_layer by lia.
    assert (Hlen : List.length (firstn k (layers document)) = k).
    { apply firstn_length_le, Nat.lt_le_incl, nth_error_Some. congruence. }
    rewrite Hlen. cbn [Nat.add].
    destruct (color_at_layer k) as (c & Hc & Hcol).
    exists layer_id, lc, c. repeat split; try assumption.
    cbn [layer_lines segments]. apply length_map.
  - intros Hok. split.
    + destruct (rbind (convert_length host unit) (py_div 1%float))
        as [scale | e] eqn:Hscale.
      * rewrite (drawn_layers_display_matplotlib _ _ _ _ _ _ _ _ _ _ _ Hscale).
        rewrite (display_matplotlib_run _ _ _ _ _ _ _ _ _ _ _ Hscale) in Hok.
        apply plot_layers_complete; [lia | exact Hok].
      * rewrite (display_matplotlib_no_scale _ _ _ _ _ _ _ _ _ _ _ Hscale)
          in Hok.
        discriminate Hok.
    + rewrite trace_bind, Hok, drawn_layers_app, map_app. reflexivity.
Qed.

(** With ten layers the palette wraps: the tenth layer (index 9) is drawn in
    [COLORS[1]]. *)
Lemma layer_mode_colors_example :
  let run :=
    display script_host ten_layers None false true false false "layer" "px"
      (Some "matplotlib") None in
  (exists col layer_id lc,
      nth_error (drawn_layers (trace run)) 9 = Some col /\
      nth_error (layers ten_layers) 9 = Some (layer_id, lc) /\
      color col = OneColor (0, 0.5, 0)%float) /\
  List.length (drawn_layers (trace run)) = 10.
Proof.
  intros run.
  destruct (layer_mode_colors script_host ten_layers None false true false
              false "px" None) as [Hcol Hall].
  fold run in Hcol, Hall.
  split.
  - assert (Hk : nth_error (drawn_layers (trace run)) 9
                 = Some (nth 9 (drawn_layers (trace run)) no_collection))
      by (vm_compute; reflexivity).
    destruct (Hcol 9 _ Hk) as (layer_id & lc & c & Hnth & Hc & Hcolor & _).
    exists (nth 9 (drawn_layers (trace run)) no_collection), layer_id, lc.
    split; [exact Hk |]. split; [exact Hnth |].
    rewrite Hcolor. injection Hc as <-. reflexivity.
  - assert (Hok : outcome run = Ok tt) by (vm_compute; reflexivity).
    destruct (Hall Hok) as [Hlen _]. exact Hlen.
Defined.

(** ** Colour mode [path] (C5) *)

Lemma firstn_path_counts (n : nat) (items : list (Z * LineCollection)) :
  path_counts (firstn n items) = firstn n (path_counts items).
Proof. unfold path_counts. symmetry. apply firstn_map. Qed.

(** The colours of the [k]-th layer in mode [path]: the palette rotated by
    the number of paths of the layers before it. *)
Lemma path_mode_color_at
    host document page_size center show_axes show_grid show_pen_up unit
    fig_size k col :
  nth_error
    (drawn_layers
       (trace (display host document page_size center show_axes show_grid
                 show_pen_up "path" unit (Some "matplotlib") fig_size))) k
  = Some col ->
  color col =
  ColorList
    (rotated (list_sum (firstn k (path_counts (layers document))) mod 8)).
Proof.
  change (display host document page_size center show_axes show_grid
            show_pen_up "path" unit (Some "matplotlib") fig_size)
    with (display_matplotlib host document page_size center show_axes
            show_grid show_pen_up true unit fig_size).
  intros Hk.
  destruct (drawn_layers_display_matplotlib_inv _ _ _ _ _ _ _ _ _ _ _ _ Hk)
    as [scale Hscale].
  rewrite (drawn_layers_display_matplotlib _ _ _ _ _ _ _ _ _ _ _ Hscale)
    in Hk.
  destruct (plot_layers_nth _ _ _ _ _ 0 _ _ ltac:(lia) Hk)
    as (layer_id & lc & Hnth & ->).
  cbn [layer_lines color]. rewrite cursor_after_path by lia.
  rewrite <- firstn_path_counts. reflexivity.
Qed.

Lemma path_mode_drawn_length
    host document page_size center show_axes show_grid show_pen_up unit
    fig_size :
  outcome (display host document page_size center show_axes show_grid
             show_pen_up "path" unit (Some "matplotlib") fig_size) = Ok tt ->
  List.length
    (drawn_layers
       (trace (display host document page_size center show_axes show_grid
                 show_pen_up "path" unit (Some "matplotlib") fig_size)))
  = List.length (layers document).
Proof.
  change (display host document page_size center show_axes show_grid
            show_pen_up "path" unit (Some "matplotlib") fig_size)
    with (display_matplotlib host document page_size center show_axes
            show_grid show_pen_up true unit fig_size).
  intros Hok.
  destruct (rbind (convert_length host unit) (py_div 1%float))
    as [scale | e] eqn:Hscale.
  - rewrite (drawn_layers_display_matplotlib _ _ _ _ _ _ _ _ _ _ _ Hscale).
    rewrite (display_matplotlib_run _ _ _ _ _ _ _ _ _ _ _ Hscale) in Hok.
    apply plot_layers_complete; [lia | exact Hok].
  - rewrite (display_matplotlib_no_scale _ _ _ _ _ _ _ _ _ _ _ Hscale) in Hok.
    discriminate Hok.
Qed.

Lemma path_mode_layer_at
    host document page_size center show_axes show_grid show_pen_up unit
    fig_size k col :
  nth_error
    (drawn_layers
       (trace (display host document page_size center show_axes show_grid
                 show_pen_up "path" unit (Some "matplotlib") fig_size))) k
  = Some col ->
  exists layer_id lc,
    nth_error (layers document) k = Some (layer_id, lc) /\
    List.length (segments col) = List.length lc.
Proof.
  change (display host document page_size center show_axes show_grid
            show_pen_up "path" unit (Some "matplotlib") fig_size)
    with (display_matplotlib host document page_size center show_axes
            show_grid show_pen_up true unit fig_size).
  intros Hk.
  destruct (drawn_layers_display_matplotlib_inv _ _ _ _ _ _ _ _ _ _ _ _ Hk)
    as [scale Hscale].
  rewrite (drawn_layers_display_matplotlib _ _ _ _ _ _ _ _ _ _ _ Hscale)
    in Hk.
  destruct (plot_layers_nth _ _ _ _ _ 0 _ _ ltac:(lia) Hk)
    as (layer_id & lc & Hnth & ->).
  exists layer_id, lc. split; [exact Hnth |].
  cbn [layer_lines segments]. apply length_map.
Qed.

(** C5.  In the raster renderer, colour mode [path]: a layer of [K] paths
    met with the cursor at [c] receives the list of all eight colours that
    starts at [COLORS[c]] and wraps around, whatever [K] is, and leaves the
    cursor at [(c + K) mod 8].  In a rendering, the [k]-th collection of
    strokes drawn is the [k]-th layer, and its list of eight colours starts
    at [COLORS[n mod 8]], [n] being the number of paths of the layers
    before it; a call that ends normally has drawn every layer.  So two
    documents whose layers have the same numbers of paths up to layer [i]
    get the same colours up to layer [i]: collection by collection, and, when
    both calls end normally, as the same list of the first [i + 1] colour
    lists. *)
Theorem path_mode_colors :
  (forall c (lc : LineCollection),
      c < 8 ->
      exists palette,
        pick_color true c lc
        = Ok (ColorList palette, (c + List.length lc) mod 8) /\
        List.length palette = 8 /\
        forall j, j < 8 ->
          nth_error palette j = nth_error COLORS ((c + j) mod 8)) /\
  (forall host document page_size center show_axes show_grid show_pen_up
          unit fig_size,
      let run :=
        display host document page_size center show_axes show_grid
          show_pen_up "path" unit (Some "matplotlib") fig_size in
      (forall k col,
          nth_error (drawn_layers (trace run)) k = Some col ->
          exists layer_id lc palette,
            nth_error (layers document) k = Some (layer_id, lc) /\
            List.length (segments col) = List.length lc /\
            color col = ColorList palette /\
            List.length palette = 8 /\
            forall j, j < 8 ->
              nth_error palette j =
              nth_error COLORS
                ((list_sum (firstn k (path_counts (layers document))) + j)
                 mod 8)) /\
      (outcome run = Ok tt ->
       List.length (drawn_layers (trace run))
       = List.length (layers document))) /\
  (forall host d1 d2 page_size center show_axes show_grid show_pen_up unit
          fig_size i,
      firstn (S i) (path_counts (layers d1))
      = firstn (S i) (path_counts (layers d2)) ->
      let run1 :=
        display host d1 page_size center show_axes show_grid show_pen_up
          "path" unit (Some "matplotlib") fig_size in
      let run2 :=
        display host d2 page_size center show_axes show_grid show_pen_up
          "path" unit (Some "matplotlib") fig_size in
      (forall k col1 col2,
          k <= i ->
          nth_error (drawn_layers (trace run1)) k = Some col1 ->
          nth_error (drawn_layers (trace run2)) k = Some col2 ->
          color col1 = color col2) /\
      (outcome run1 = Ok tt ->
       outcome run2 = Ok tt ->
       firstn (S i) (map color (drawn_layers (trace run1)))
       = firstn (S i) (map color (drawn_layers (trace run2))))).
Proof.
  split; [| split].
  - intros c lc Hc. exists (rotated c).
    split; [| split].
    + rewrite (pick_color_advance true c lc Hc). reflexivity.
    + apply rotated_length.
    + intros j Hj. now apply rotated_nth.
  - intros host document page_size center show_axes show_grid show_pen_up
      unit fig_size run. subst run. split.
    + intros k col Hk.
      destruct (path_mode_layer_at _ _ _ _ _ _ _ _ _ _ _ Hk)
        as (layer_id & lc & Hnth & Hlen).
      exists layer_id, lc. eexists.
      split; [exact Hnth |]. split; [exact Hlen |].
      split; [exact (path_mode_color_at _ _ _ _ _ _ _ _ _ _ _ Hk) |].
      split; [apply rotated_length |].
      intros j Hj.
      rewrite rotated_nth by (try apply Nat.mod_upper_bound; lia).
      now rewrite Nat.Div0.add_mod_idemp_l.
    + apply path_mode_drawn_length.
  - intros host d1 d2 page_size center show_axes show_grid show_pen_up unit
      fig_size i Hcounts run1 run2. subst run1 run2.
    assert (Hpoint :
      forall k col1 col2,
        k <= i ->
        nth_error
          (drawn_layers
             (trace (display host d1 page_size center show_axes show_grid
                       show_pen_up "path" unit (Some "matplotlib") fig_size)))
          k = Some col1 ->
        nth_error
          (drawn_layers
             (trace (display host d2 page_size center show_axes show_grid
                       show_pen_up "path" unit (Some "matplotlib") fig_size)))
          k = Some col2 ->
        color col1 = color col2).
    { intros k col1 col2 Hk H1 H2.
      rewrite (path_mode_color_at _ _ _ _ _ _ _ _ _ _ _ H1).
      rewrite (path_mode_color_at _ _ _ _ _ _ _ _ _ _ _ H2).
      assert (Hpre : firstn k (path_counts (layers d1))
                     = firstn k (path_counts (layers d2))).
      { replace k with (Nat.min k (S i)) by lia.
        rewrite <- !firstn_firstn. now rewrite Hcounts. }
      now rewrite Hpre. }
    split; [exact Hpoint |].
    intros Hok1 Hok2.
    pose proof (path_mode_drawn_length _ _ _ _ _ _ _ _ _ Hok1) as Hlen1.
    pose proof (path_mode_drawn_length _ _ _ _ _ _ _ _ _ Hok2) as Hlen2.
    assert (Hmin : Nat.min (S i) (List.length (layers d1))
                   = Nat.min (S i) (List.length (layers d2))).
    { apply (f_equal (@List.length nat)) in Hcounts.
      rewrite !length_firstn in Hcounts. unfold path_counts in Hcounts.
      now rewrite !length_map in Hcounts. }
    apply nth_error_ext. intros n.
    rewrite !nth_error_firstn.
    destruct (Nat.ltb_spec n (S i)) as [Hn | Hn]; [| reflexivity].
    rewrite !nth_error_map.
    destruct (nth_error _ n) as [col1 |] eqn:H1 at 1;
      destruct (nth_error _ n) as [col2 |] eqn:H2 at 1; cbn [option_map].
    + f_equal. apply (Hpoint n col1 col2); [lia | exact H1 | exact H2].
    + apply nth_error_None in H2. rewrite Hlen2 in H2.
      assert (n < List.length (layers d1))
        by (rewrite <- Hlen1; apply nth_error_Some; congruence).
      lia.
    + apply nth_error_None in H1. rewrite Hlen1 in H1.
      assert (n < List.length (layers d2))
        by (rewrite <- Hlen2; apply nth_error_Some; congruence).
      lia.
    + reflexivity.
Qed.

(** Layers of three, six and one path: the three layers are drawn, the
    second with the colours from [COLORS[3]] on, the third, after nine
    paths, with the colours from [COLORS[1]] on; and a document whose first
    two layers have three and six paths too gets the same two lists of
    colours for them. *)
Lemma path_mode_colors_example :
  let run1 :=
    display script_host counts_3_6_1 None false true false false "path" "px"
      (Some "matplotlib") None in
  let run2 :=
    display script_host counts_3_6_4_2 None false true false false "path"
      "px" (Some "matplotlib") None in
  (exists palette,
      pick_color true 5 (dashes 6) = Ok (ColorList palette, 3) /\
      List.length palette = 8) /\
  List.length (drawn_layers (trace run1)) = 3 /\
  (exists palette,
      color (nth 1 (drawn_layers (trace run1)) no_collection)
      = ColorList palette /\
      nth_error palette 0 = Some (0, 0.75, 0.75)%float) /\
  (exists palette,
      color (nth 2 (drawn_layers (trace run1)) no_collection)
      = ColorList palette /\
      nth_error palette 0 = Some (0, 0.5, 0)%float) /\
  firstn 2 (map color (drawn_layers (trace run1)))
  = firstn 2 (map color (drawn_layers (trace run2))).
Proof.
  intros run1 run2.
  destruct path_mode_colors as (Hpick & Hrun & Hprefix).
  destruct (Hrun script_host counts_3_6_1 None false true false false "px"
              None) as [Hat Hall].
  fold run1 in Hat, Hall.
  assert (Hok1 : outcome run1 = Ok tt) by (vm_compute; reflexivity).
  assert (Hok2 : outcome run2 = Ok tt) by (vm_compute; reflexivity).
  assert (Hnth : forall k, k < 3 ->
                   nth_error (drawn_layers (trace run1)) k
                   = Some (nth k (drawn_layers (trace run1)) no_collection)).
  { intros k Hk. apply nth_error_nth'. now rewrite (Hall Hok1). }
  split.
  { destruct (Hpick 5 (dashes 6) ltac:(lia)) as (palette & Hp & Hlen & _).
    exists palette. split; [exact Hp | exact Hlen]. }
  split; [exact (Hall Hok1) |].
  split.
  { destruct (Hat 1 _ (Hnth 1 ltac:(lia)))
      as (_ & _ & palette & _ & _ & Hcol & _ & Hj).
    exists palette. split; [exact Hcol | exact (Hj 0 ltac:(lia))]. }
  split.
  { destruct (Hat 2 _ (Hnth 2 ltac:(lia)))
      as (_ & _ & palette & _ & _ & Hcol & _ & Hj).
    exists palette. split; [exact Hcol | exact (Hj 0 ltac:(lia))]. }
  destruct (Hprefix script_host counts_3_6_1 counts_3_6_4_2 None false true
              false false "px" None 1 eq_refl) as [_ Hlists].
  exact (Hlists Hok1 Hok2).
Defined.

(** ** The dispatcher (C6, C7, C8, C9) *)

Lemma display_ipython_absent host document page_size center show_pen_up
    color_mode :
  IPython_in_sys_modules host = false ->
  display_ipython host document page_size center show_pen_up color_mode
  = ([], Raise outside_of_IPython).
Proof. unfold display_ipython. now intros ->. Qed.

Lemma display_ipython_present host document page_size center show_pen_up
    color_mode :
  IPython_in_sys_modules host = true ->
  exists html,
    display_ipython host document page_size center show_pen_up color_mode
    = ([display_html html], Ok tt).
Proof.
  unfold display_ipython. intros ->. cbn [negb].
  destruct page_size as [ps |]; [| destruct (document_bounds host document)];
    eexists; reflexivity.
Qed.

(** The vector branch of [display]: the warnings, then [display_ipython]. *)
Lemma display_mode_ipython host document page_size center show_axes show_grid
    show_pen_up color_mode unit fig_size :
  display host document page_size center show_axes show_grid show_pen_up
    color_mode unit (Some "ipython") fig_size =
  (map logging_warning (option_warnings show_axes show_grid unit fig_size)
   ++ trace (display_ipython host document page_size center show_pen_up
               color_mode),
   outcome (display_ipython host document page_size center show_pen_up
              color_mode)).
Proof.
  unfold display, option_warnings. cbn [String.eqb Ascii.eqb Bool.eqb].
  destruct (display_ipython host document page_size center show_pen_up
              color_mode) as [t [[] | e]];
    destruct show_axes, show_grid, (unit =? "px")%string, fig_size;
    reflexivity.
Qed.

Lemma display_mode_None host document page_size center show_axes show_grid
    show_pen_up color_mode unit fig_size :
  display host document page_size center show_axes show_grid show_pen_up
    color_mode unit None fig_size =
  display host document page_size center show_axes show_grid show_pen_up
    color_mode unit
    (Some (if COLAB host || JUPYTERLAB host then "ipython" else "matplotlib"))
    fig_size.
Proof. reflexivity. Qed.

Lemma warnings_map_logging (ws : list string) :
  warnings (map logging_warning ws) = ws.
Proof.
  induction ws as [| w ws IH]; [reflexivity |].
  cbn. f_equal. exact IH.
Qed.

Lemma markups_map_logging (ws : list string) :
  markups (map logging_warning ws) = [].
Proof. induction ws as [| w ws IH]; [reflexivity | exact IH]. Qed.

Lemma canvas_calls_map_logging (ws : list string) :
  filter is_canvas_call (map logging_warning ws) = [].
Proof. induction ws as [| w ws IH]; [reflexivity | exact IH]. Qed.

(** The raster renderer logs nothing and sends no markup. *)
Lemma display_matplotlib_canvas_only host document page_size
    center show_axes show_grid show_pen_up colorful unit fig_size :
  Forall (fun e => is_canvas_call e = true)
    (trace (display_matplotlib host document page_size center show_axes
              show_grid show_pen_up colorful unit fig_size)).
Proof.
  destruct (rbind (convert_length host unit) (py_div 1%float))
    as [scale | e] eqn:Hscale.
  - rewrite (display_matplotlib_run _ _ _ _ _ _ _ _ _ _ _ Hscale).
    cbn [trace fst].
    apply Forall_app. split; [destruct fig_size; repeat constructor |].
    constructor; [reflexivity |].
    apply Forall_app. split; [destruct page_size; repeat constructor |].
    apply Forall_app. split.
    + eapply Forall_impl; [| apply plot_layers_draws_only].
      now intros e [col ->].
    + match goal with |- context [outcome ?b] => destruct (outcome b) end;
        [| constructor].
      unfold axes_and_grid.
      destruct show_axes, show_grid; repeat constructor.
  - rewrite (display_matplotlib_no_scale _ _ _ _ _ _ _ _ _ _ _ Hscale).
    constructor.
Qed.

Lemma canvas_only_no_markup (t : list event) :
  Forall (fun e => is_canvas_call e = true) t ->
  markups t = [] /\ warnings t = [].
Proof.
  induction 1 as [| e t He _ [IHm IHw]]; [now split |].
  destruct e; try discriminate He; now split.
Qed.

(** C6.  Without a mode, [display] runs as with the mode ["ipython"] when
    [COLAB] or [JUPYTERLAB] is set and as with the mode ["matplotlib"]
    otherwise.  The mode ["matplotlib"] is the raster renderer, which sends
    no markup; the mode ["ipython"] is the warnings followed by the vector
    renderer, which makes no call on the canvas. *)
Theorem mode_inference
    host document page_size center show_axes show_grid show_pen_up color_mode
    unit fig_size :
  let display_as mode :=
    display host document page_size center show_axes show_grid show_pen_up
      color_mode unit mode fig_size in
  display_as None =
  display_as
    (Some (if COLAB host || JUPYTERLAB host then "ipython" else "matplotlib"))
  /\ display_as (Some "matplotlib") =
     display_matplotlib host document page_size center show_axes show_grid
       show_pen_up (color_mode =? "path")%string unit fig_size
  /\ markups (trace (display_as (Some "matplotlib"))) = []
  /\ display_as (Some "ipython") =
     (map logging_warning (option_warnings show_axes show_grid unit fig_size)
      ++ trace (display_ipython host document page_size center show_pen_up
                  color_mode),
      outcome (display_ipython host document page_size center show_pen_up
                 color_mode))
  /\ filter is_canvas_call (trace (display_as (Some "ipython"))) = [].
Proof.
  intros display_as. subst display_as.
  split; [apply display_mode_None |].
  split; [reflexivity |].
  split.
  - change (display host document page_size center show_axes show_grid
              show_pen_up color_mode unit (Some "matplotlib") fig_size)
      with (display_matplotlib host document page_size center show_axes
              show_grid show_pen_up (color_mode =? "path")%string unit
              fig_size).
    apply canvas_only_no_markup, display_matplotlib_canvas_only.
  - split; [apply display_mode_ipython |].
    rewrite display_mode_ipython. cbn [trace fst].
    rewrite filter_app, canvas_calls_map_logging.
    destruct (IPython_in_sys_modules host) eqn:Hpy.
    + destruct (display_ipython_present host document page_size center
                  show_pen_up color_mode Hpy) as [html ->].
      reflexivity.
    + now rewrite display_ipython_absent.
Qed.

(** C7.  Without IPython among the loaded modules the vector renderer
    raises at once, before it writes the SVG and before it calls
    [display_html]: its trace is empty.  Reached through [display], by an
    explicit or an inferred mode, the call ends with that exception; the
    only events are the warnings [display] itself logged beforehand, so no
    markup is sent and nothing is drawn. *)
Theorem vector_renderer_needs_IPython
    host document page_size center show_axes show_grid show_pen_up color_mode
    unit fig_size :
  IPython_in_sys_modules host = false ->
  display_ipython host document page_size center show_pen_up color_mode
  = ([], Raise outside_of_IPython) /\
  forall mode,
    mode = Some "ipython" \/
    (mode = None /\ COLAB host || JUPYTERLAB host = true) ->
    let run :=
      display host document page_size center show_axes show_grid show_pen_up
        color_mode unit mode fig_size in
    outcome run = Raise outside_of_IPython /\
    trace run =
    map logging_warning (option_warnings show_axes show_grid unit fig_size) /\
    markups (trace run) = [] /\
    filter is_canvas_call (trace run) = [].
Proof.
  intros Hpy. split; [now apply display_ipython_absent |].
  intros mode Hmode run.
  assert (Hrun : run =
                 display host document page_size center show_axes show_grid
                   show_pen_up color_mode unit (Some "ipython") fig_size).
  { subst run. destruct Hmode as [-> | [-> Hnb]]; [reflexivity |].
    rewrite display_mode_None, Hnb. reflexivity. }
  rewrite Hrun, display_mode_ipython, display_ipython_absent by exact Hpy.
  cbn [trace outcome fst snd]. rewrite app_nil_r.
  split; [reflexivity |]. split; [reflexivity |].
  split; [apply markups_map_logging | apply canvas_calls_map_logging].
Qed.

Lemma vector_renderer_needs_IPython_example :
  display_ipython script_host two_paths (Some (10, 10)%float) true false
    "layer"
  = ([], Raise outside_of_IPython) /\
  let run :=
    display script_host two_paths (Some (10, 10)%float) true true false false
      "layer" "px" (Some "ipython") None in
  outcome run = Raise outside_of_IPython /\
  trace run =
  [logging_warning "show_axis is not supported by the IPython display mode"]
  /\ markups (trace run) = [].
Proof.
  destruct (vector_renderer_needs_IPython script_host two_paths
              (Some (10, 10)%float) true true false false "layer" "px" None
              eq_refl) as [Hrenderer Hdisplay].
  split; [exact Hrenderer |].
  destruct (Hdisplay (Some "ipython") (or_introl eq_refl))
    as (Hout & Htrace & Hmarkup & _).
  split; [exact Hout |]. split; [exact Htrace | exact Hmarkup].
Defined.

(** C8.  A mode that is neither ["ipython"] nor ["matplotlib"] makes
    [display] raise [ValueError] with an empty trace: no warning, no call on
    the canvas, no markup. *)
Theorem unsupported_mode_raises
    host document page_size center show_axes show_grid show_pen_up color_mode
    unit fig_size (mode : string) :
  mode <> "ipython" ->
  mode <> "matplotlib" ->
  display host document page_size center show_axes show_grid show_pen_up
    color_mode unit (Some mode) fig_size
  = ([], Raise (ValueError ("unsupported display mode: " ++ mode)%string)).
Proof.
  intros Hi Hm. unfold display.
  apply String.eqb_neq in Hi, Hm. rewrite Hi, Hm. reflexivity.
Qed.

Lemma unsupported_mode_raises_example :
  display script_host two_paths None false true false false "layer" "px"
    (Some "svg") None
  = ([], Raise (ValueError "unsupported display mode: svg")).
Proof.
  apply (unsupported_mode_raises script_host two_paths None false true false
           false "layer" "px" None "svg"); discriminate.
Defined.

(** C9, as stated, fails for [show_axes]: its default is [True], and set to
    the other value, [False], it is not reported at all; the vector renderer
    still runs. *)
Lemma non_default_show_axes_is_not_reported :
  Default.show_axes = true /\
  let run :=
    display notebook_host two_paths None false false false false "layer"
      "px" (Some "ipython") None in
  warnings (trace run) = [] /\
  List.length (markups (trace run)) = 1 /\
  outcome run = Ok tt.
Proof. repeat split. Qed.

(** C9 (amended).  When the vector renderer is chosen, by an explicit or an
    inferred mode, and IPython is loaded: a true [show_axes] (the default
    value of that option), a true [show_grid], a unit other than ["px"] and
    a given [fig_size] are each reported by exactly one warning, in this
    order; a false [show_axes] or [show_grid], the unit ["px"] and an absent
    [fig_size] are not reported.  Then [display_ipython] runs without these
    four options and its markup is handed to [display_html]: the call ends
    normally with that single markup. *)
Theorem vector_mode_warns_and_renders
    host document page_size center show_axes show_grid show_pen_up color_mode
    unit fig_size mode :
  IPython_in_sys_modules host = true ->
  mode = Some "ipython" \/
  (mode = None /\ COLAB host || JUPYTERLAB host = true) ->
  let run :=
    display host document page_size center show_axes show_grid show_pen_up
      color_mode unit mode fig_size in
  let count msg := count_occ string_dec (warnings (trace run)) msg in
  (exists html,
      display_ipython host document page_size center show_pen_up color_mode
      = ([display_html html], Ok tt) /\
      run =
      (map logging_warning
           (option_warnings show_axes show_grid unit fig_size)
       ++ [display_html html], Ok tt)) /\
  count "show_axis is not supported by the IPython display mode"
  = (if show_axes then 1 else 0) /\
  count "show_grid is not supported by the IPython display mode"
  = (if show_grid then 1 else 0) /\
  count "custom units are not supported by the IPython display mode"
  = (if (unit =? "px")%string then 0 else 1) /\
  count "setting fig_size is not supported by the IPython display mode"
  = (match fig_size with Some _ => 1 | None => 0 end) /\
  List.length (warnings (trace run))
  = List.length (option_warnings show_axes show_grid unit fig_size).
Proof.
  intros Hpy Hmode run count.
  assert (Hrun : run =
                 display host document page_size center show_axes show_grid
                   show_pen_up color_mode unit (Some "ipython") fig_size).
  { subst run. destruct Hmode as [-> | [-> Hnb]]; [reflexivity |].
    rewrite display_mode_None, Hnb. reflexivity. }
  destruct (display_ipython_present host document page_size center
              show_pen_up color_mode Hpy) as [html Hhtml].
  assert (Hws : warnings (trace run)
                = option_warnings show_axes show_grid unit fig_size).
  { rewrite Hrun, display_mode_ipython, Hhtml. cbn [trace fst].
    rewrite warnings_app, warnings_map_logging. apply app_nil_r. }
  split.
  - exists html. split; [exact Hhtml |].
    rewrite Hrun, display_mode_ipython, Hhtml. reflexivity.
  - subst count. cbv beta. rewrite Hws. unfold option_warnings.
    destruct show_axes, show_grid, (unit =? "px")%string, fig_size;
      repeat split.
Qed.

Lemma vector_mode_warns_and_renders_example :
  let run :=
    display notebook_host two_paths (Some (10, 10)%float) true true false
      false "layer" "px" None None in
  count_occ string_dec (warnings (trace run))
    "show_axis is not supported by the IPython display mode" = 1 /\
  List.length (warnings (trace run)) = 1.
Proof.
  destruct (vector_mode_warns_and_renders notebook_host two_paths
              (Some (10, 10)%float) true true false false "layer" "px" None
              None eq_refl (or_intror (conj eq_refl eq_refl)))
    as (_ & Haxes & _ & _ & _ & Hlen).
  split; [exact Haxes | exact Hlen].
Defined.

(** ** Axes and grid (C10) *)

Lemma axes_calls_app (t u : list event) :
  axes_calls (t ++ u) = axes_calls t ++ axes_calls u.
Proof. apply filter_app. Qed.

Lemma axes_calls_collections (t : list event) :
  Forall (fun e => exists col, e = add_collection col) t ->
  axes_calls t = [].
Proof.
  induction 1 as [| e t [col ->] _ IH]; [reflexivity | exact IH].
Qed.

Lemma grid_calls_app (t u : list event) :
  grid_calls (t ++ u) = grid_calls t ++ grid_calls u.
Proof. apply filter_app. Qed.

Lemma grid_calls_collections (t : list event) :
  Forall (fun e => exists col, e = add_collection col) t ->
  grid_calls t = [].
Proof.
  induction 1 as [| e t [col ->] _ IH]; [reflexivity | exact IH].
Qed.

(** C10.  In a raster rendering that reaches its end, the axes are switched
    on, and both axes labelled with the unit, when [show_axes] or
    [show_grid] is true, also when [show_axes] is false and [show_grid]
    true; they are switched off when both are false.  The grid is drawn when
    [show_grid] is true. *)
Theorem grid_turns_axes_on
    host document page_size center show_axes show_grid show_pen_up colorful
    unit fig_size :
  let run :=
    display_matplotlib host document page_size center show_axes show_grid
      show_pen_up colorful unit fig_size in
  outcome run = Ok tt ->
  axes_calls (trace run) =
  plt_axis "equal"
  :: (if show_axes || show_grid then
        [ plt_axis "on";
          plt_xlabel ("[" ++ unit ++ "]")%string;
          plt_ylabel ("[" ++ unit ++ "]")%string ]
      else [ plt_axis "off" ]) /\
  grid_calls (trace run) = (if show_grid then [ plt_grid "on" ] else []).
Proof.
  intros run Hok. subst run.
  destruct (rbind (convert_length host unit) (py_div 1%float))
    as [scale | e] eqn:Hscale.
  2: { rewrite (display_matplotlib_no_scale _ _ _ _ _ _ _ _ _ _ _ Hscale)
         in Hok.
       discriminate Hok. }
  rewrite (display_matplotlib_run _ _ _ _ _ _ _ _ _ _ _ Hscale) in Hok |- *.
  cbn [outcome snd] in Hok. cbn [trace fst]. rewrite Hok.
  set (body := plot_layers _ scale show_pen_up colorful (layers document) 0).
  assert (Hbody := plot_layers_draws_only
                     (compute_offset center page_size
                        (document_bounds host document))
                     scale show_pen_up colorful (layers document) 0).
  fold body in Hbody.
  change (plt_cla :: ?l) with ([plt_cla] ++ l).
  split.
  - rewrite !axes_calls_app, (axes_calls_collections _ Hbody).
    destruct fig_size, page_size, show_axes, show_grid; reflexivity.
  - rewrite !grid_calls_app, (grid_calls_collections _ Hbody).
    destruct fig_size, page_size, show_axes, show_grid; reflexivity.
Qed.

(** Axes off, grid on: the axes are switched on all the same. *)
Lemma grid_turns_axes_on_example :
  let run :=
    display_matplotlib script_host two_paths None false false true false
      false "cm" None in
  axes_calls (trace run) =
  [ plt_axis "equal"; plt_axis "on"; plt_xlabel "[cm]"; plt_ylabel "[cm]" ] /\
  grid_calls (trace run) = [ plt_grid "on" ].
Proof.
  apply (grid_turns_axes_on script_host two_paths None false false true false
           false "cm" None).
  vm_compute. reflexivity.
Defined.

(** * Further properties of the code *)

(** ** Failures of the pen-up generator *)

Lemma mapR_Raise_first {A B} (f : A -> result B) (e0 : exn) (l : list A) :
  (forall x e, In x l -> f x = Raise e -> e = e0) ->
  (exists x, In x l /\ f x = Raise e0) ->
  mapR f l = Raise e0.
Proof.
  induction l as [| x l IH]; intros Hall (y & Hy & Hfy).
  - destruct Hy.
  - cbn [mapR]. destruct (f x) as [b | e] eqn:Hfx; cbn [rbind].
    + rewrite IH.
      * reflexivity.
      * intros z e Hz. apply Hall. now right.
      * destruct Hy as [-> | Hy]; [congruence | now exists y].
    + f_equal. apply (Hall x e); [now left | exact Hfx].
Qed.

Lemma pen_up_segments_pairs lc offset_ndarr scale :
  pen_up_segments lc offset_ndarr scale =
  mapR (pen_up_pair lc offset_ndarr scale) (seq 0 (List.length lc - 1)).
Proof. reflexivity. Qed.

Lemma py_index_error {A} (l : list A) (i : nat) (e : exn) :
  py_index l i = Raise e -> e = IndexError.
Proof. unfold py_index. destruct (nth_error l i); congruence. Qed.

Lemma py_last_error {A} (l : list A) (e : exn) :
  py_last l = Raise e -> e = IndexError.
Proof. unfold py_last. destruct (rev l); congruence. Qed.

Lemma py_first_error {A} (l : list A) (e : exn) :
  py_first l = Raise e -> e = IndexError.
Proof. destruct l; cbn; congruence. Qed.

(** The generator can only fail with [IndexError]. *)
Lemma pen_up_pair_error lc offset_ndarr scale i e :
  pen_up_pair lc offset_ndarr scale i = Raise e -> e = IndexError.
Proof.
  unfold pen_up_pair.
  destruct (py_index lc i) as [a |] eqn:Ha; cbn [rbind];
    [| now apply py_index_error in Ha; intros [= <-]].
  destruct (py_last (as_vector a)) as [p |] eqn:Hp; cbn [rbind];
    [| now apply py_last_error in Hp; intros [= <-]].
  destruct (py_index lc (i + 1)) as [b |] eqn:Hb; cbn [rbind];
    [| now apply py_index_error in Hb; intros [= <-]].
  destruct (py_first (as_vector b)) as [q |] eqn:Hq; cbn [rbind];
    [discriminate | now apply py_first_error in Hq; intros [= <-]].
Qed.

Lemma pen_up_pair_empty_left (lc : LineCollection) offset_ndarr scale i :
  nth_error lc i = Some [] ->
  pen_up_pair lc offset_ndarr scale i = Raise IndexError.
Proof. unfold pen_up_pair, py_index. now intros ->. Qed.

Lemma pen_up_pair_empty_right (lc : LineCollection) offset_ndarr scale i :
  i < List.length lc ->
  nth_error lc (i + 1) = Some [] ->
  pen_up_pair lc offset_ndarr scale i = Raise IndexError.
Proof.
  intros Hi Hb. unfold pen_up_pair, py_index.
  rewrite (nth_error_nth' lc [] Hi), Hb. cbn [rbind].
  destruct (py_last (as_vector (nth i lc []))) as [p |] eqn:Hp; cbn [rbind].
  - reflexivity.
  - f_equal. now apply py_last_error in Hp.
Qed.

Lemma broken_layer_raises (lc : LineCollection) offset_ndarr scale :
  broken_layer lc ->
  pen_up_segments lc offset_ndarr scale = Raise IndexError.
Proof.
  intros [Hlen Hex]. rewrite pen_up_segments_pairs.
  apply mapR_Raise_first.
  - intros i e _. apply pen_up_pair_error.
  - apply Exists_exists in Hex. destruct Hex as (path & Hin & ->).
    apply In_nth_error in Hin. destruct Hin as [j Hj].
    assert (Hjlt : j < List.length lc) by (apply nth_error_Some; congruence).
    destruct (Nat.eq_dec (j + 1) (List.length lc)) as [Hlast | Hmid].
    + exists (j - 1). split; [apply in_seq; lia |].
      apply pen_up_pair_empty_right; [lia |].
      now replace (j - 1 + 1) with j by lia.
    + exists j. split; [apply in_seq; lia |].
      now apply pen_up_pair_empty_left.
Qed.

Lemma path_empty_dec (path : Path) : {path <> []} + {~ path <> []}.
Proof. destruct path; [right; congruence | left; discriminate]. Qed.

Lemma sound_or_broken (lc : LineCollection) :
  List.length lc <= 1 \/
  Forall (fun path : Path => path <> []) lc \/
  broken_layer lc.
Proof.
  destruct (le_dec (List.length lc) 1) as [Hle | Hgt]; [now left |].
  destruct (Forall_Exists_dec (fun path : Path => path <> [])
              path_empty_dec lc) as [Hall | Hex].
  - now right; left.
  - right; right. split; [lia |].
    eapply Exists_impl; [| exact Hex].
    intros [| p path] Hp; [reflexivity | exfalso; apply Hp; discriminate].
Qed.

Lemma short_layer_Ok (lc : LineCollection) offset_ndarr scale :
  List.length lc <= 1 ->
  pen_up_segments lc offset_ndarr scale = Ok [].
Proof.
  intros Hle. rewrite pen_up_segments_pairs.
  replace (List.length lc - 1) with 0 by lia. reflexivity.
Qed.

Lemma pen_up_fails_on_broken_step (lc : LineCollection) offset scale :
  (exists segs,
      pen_up_segments lc (real offset, imag offset) scale = Ok segs /\
      ~ broken_layer lc) \/
  (pen_up_segments lc (real offset, imag offset) scale = Raise IndexError /\
   broken_layer lc).
Proof.
  destruct (sound_or_broken lc) as [Hle | [Hall | Hbroken]].
  - left. exists []. split; [now apply short_layer_Ok |].
    intros [Hlen _]. lia.
  - left. eexists. split; [now apply pen_up_segments_Ok |].
    intros [_ Hex]. apply Exists_exists in Hex.
    destruct Hex as (path & Hin & ->).
    rewrite Forall_forall in Hall. now apply (Hall [] Hin).
  - right. split; [now apply broken_layer_raises | exact Hbroken].
Qed.

(** The pen-up segments of a layer cannot be computed exactly when the layer
    is broken: it has two paths or more and one of them has no point.  The
    failure is an [IndexError]; a layer of one path, even an empty one, and
    a layer without paths give no segment and no failure. *)
Theorem pen_up_fails_on_broken_layers
    (lc : LineCollection) (offset_ndarr : vec2) (scale : float) :
  (pen_up_segments lc offset_ndarr scale = Raise IndexError
   <-> broken_layer lc) /\
  (forall e, pen_up_segments lc offset_ndarr scale = Raise e ->
             e = IndexError) /\
  (~ broken_layer lc ->
   exists segs,
     pen_up_segments lc offset_ndarr scale = Ok segs /\
     List.length segs = List.length lc - 1).
Proof.
  assert (Hsound : ~ broken_layer lc ->
                   exists segs,
                     pen_up_segments lc offset_ndarr scale = Ok segs /\
                     List.length segs = List.length lc - 1).
  { intros Hnot.
    destruct (sound_or_broken lc) as [Hle | [Hall | Hbroken]];
      [| | contradiction].
    - exists []. split; [now apply short_layer_Ok | cbn; lia].
    - destruct offset_ndarr as [x y].
      eexists. split;
        [exact (pen_up_segments_Ok (Complex x y) scale lc Hall) |].
      now rewrite length_map, length_seq. }
  assert (Hiff : forall e, pen_up_segments lc offset_ndarr scale = Raise e ->
                           e = IndexError /\ broken_layer lc).
  { intros e He.
    destruct (sound_or_broken lc) as [Hle | [Hall | Hbroken]].
    - rewrite short_layer_Ok in He by exact Hle. discriminate He.
    - destruct Hsound as (segs & Hsegs & _).
      + intros [Hlen Hex]. apply Exists_exists in Hex.
        destruct Hex as (path & Hin & ->).
        rewrite Forall_forall in Hall. now apply (Hall [] Hin).
      + congruence.
    - rewrite (broken_layer_raises lc offset_ndarr scale Hbroken) in He.
      split; [congruence | exact Hbroken]. }
  split; [split |].
  - intros He. now apply (Hiff IndexError).
  - apply broken_layer_raises.
  - split; [intros e He; now apply (Hiff e) | exact Hsound].
Qed.

(** The second layer of [with_empty_path] is broken; its first is not. *)
Lemma pen_up_fails_on_broken_layers_example :
  pen_up_segments [ [pt 4 4; pt 5 5]; [] ]%float (0, 0)%float 1%float
  = Raise IndexError /\
  exists segs,
    pen_up_segments [ [pt 0 0; pt 1 1]; [pt 2 2; pt 3 3] ]%float
      (0, 0)%float 1%float = Ok segs /\
    List.length segs = 1.
Proof.
  split.
  - apply (pen_up_fails_on_broken_layers
             [ [pt 4 4; pt 5 5]; [] ]%float (0, 0)%float 1%float).
    split; [cbn; lia | right; now left].
  - apply (pen_up_fails_on_broken_layers
             [ [pt 0 0; pt 1 1]; [pt 2 2; pt 3 3] ]%float (0, 0)%float
             1%float).
    intros [_ Hex]. apply Exists_exists in Hex.
    destruct Hex as (path & [<- | [<- | []]] & Hpath); discriminate Hpath.
Defined.

(** ** The loop over the layers, once more *)

Lemma outcome_pen_up_step show_pen_up offset scale lc :
  outcome (when show_pen_up (pen_up_lines offset scale lc)) =
  if show_pen_up then
    match pen_up_segments lc (real offset, imag offset) scale with
    | Ok _ => Ok tt
    | Raise e => Raise e
    end
  else Ok tt.
Proof.
  destruct show_pen_up; [apply outcome_pen_up_lines | reflexivity].
Qed.

Lemma drawn_pen_ups_step show_pen_up offset scale lc :
  drawn_pen_ups (trace (when show_pen_up (pen_up_lines offset scale lc))) =
  if show_pen_up then
    match pen_up_segments lc (real offset, imag offset) scale with
    | Ok segs => [pen_up_collection segs]
    | Raise _ => []
    end
  else [].
Proof.
  destruct show_pen_up; [| reflexivity].
  cbn [when]. rewrite trace_pen_up_lines.
  now destruct (pen_up_segments lc (real offset, imag offset) scale).
Qed.

Lemma filter_collections (p : event -> bool) (t : list event) :
  (forall col, p (add_collection col) = false) ->
  Forall (fun e => exists col, e = add_collection col) t ->
  filter p t = [].
Proof.
  intros Hp. induction 1 as [| e t [col ->] _ IH]; [reflexivity |].
  cbn [filter]. now rewrite Hp.
Qed.

Lemma drawn_pen_ups_off offset scale colorful items :
  forall c,
    c < 8 ->
    drawn_pen_ups (trace (plot_layers offset scale false colorful items c))
    = [].
Proof.
  induction items as [| [id0 lc0] items IH]; intros c Hc; [reflexivity |].
  rewrite drawn_pen_ups_plot_cons by exact Hc.
  cbn [when ret trace outcome fst snd drawn_pen_ups flat_map app].
  apply IH, advance_lt.
Qed.

(** A loop that ends normally has drawn the layers in the order of the
    document, each under the label of its id and with one line per path. *)
Lemma plot_layers_in_order offset scale show_pen_up colorful items :
  forall c,
    c < 8 ->
    outcome (plot_layers offset scale show_pen_up colorful items c) = Ok tt ->
    map label
      (drawn_layers
         (trace (plot_layers offset scale show_pen_up colorful items c)))
    = map (fun item => Some (str_int (fst item))) items /\
    map (fun col => List.length (segments col))
      (drawn_layers
         (trace (plot_layers offset scale show_pen_up colorful items c)))
    = path_counts items.
Proof.
  induction items as [| [id0 lc0] items IH]; intros c Hc Hok.
  - now split.
  - rewrite drawn_layers_plot_cons by exact Hc.
    rewrite outcome_plot_cons in Hok by exact Hc.
    destruct (outcome (when show_pen_up (pen_up_lines offset scale lc0)));
      [| discriminate Hok].
    destruct (IH _ (advance_lt colorful c lc0) Hok) as [Hlabels Hcounts].
    cbn [map layer_lines label segments fst snd path_counts].
    rewrite Hlabels, length_map. split; [reflexivity |].
    f_equal. exact Hcounts.
Qed.

Lemma compute_offset_off (center : bool)
    (page_size : option (float * float)) (bounds : option (Bounds float)) :
  center = false \/ page_size = None ->
  compute_offset center page_size bounds = origin.
Proof. intros [-> | ->]; [reflexivity | now destruct center]. Qed.

(** A loop that ends normally has drawn, for every layer in turn, its paths
    moved by the offset and scaled. *)
Lemma plot_layers_segments offset scale show_pen_up colorful items :
  forall c,
    c < 8 ->
    outcome (plot_layers offset scale show_pen_up colorful items c) = Ok tt ->
    map segments
      (drawn_layers
         (trace (plot_layers offset scale show_pen_up colorful items c)))
    = map (fun item => map (map (rendered offset scale)) (snd item)) items.
Proof.
  induction items as [| [id0 lc0] items IH]; intros c Hc Hok.
  - reflexivity.
  - rewrite drawn_layers_plot_cons by exact Hc.
    rewrite outcome_plot_cons in Hok by exact Hc.
    destruct (outcome (when show_pen_up (pen_up_lines offset scale lc0)));
      [| discriminate Hok].
    cbn [map layer_lines segments snd].
    rewrite (IH _ (advance_lt colorful c lc0) Hok). f_equal.
    apply map_ext. intros line. apply stroke_rendered.
Qed.

(** The loop at its first broken layer, number [k]: [IndexError], after the
    strokes of [k + 1] layers and the pen-up segments of [k] layers. *)
Lemma plot_layers_broken offset scale colorful items :
  forall c k layer_id lc,
    c < 8 ->
    nth_error items k = Some (layer_id, lc) ->
    broken_layer lc ->
    Forall (fun item => ~ broken_layer (snd item)) (firstn k items) ->
    outcome (plot_layers offset scale true colorful items c)
    = Raise IndexError /\
    map segments
      (drawn_layers (trace (plot_layers offset scale true colorful items c)))
    = map (fun item => map (map (rendered offset scale)) (snd item))
          (firstn (S k) items) /\
    List.length
      (drawn_pen_ups (trace (plot_layers offset scale true colorful items c)))
    = k.
Proof.
  induction items as [| [id0 lc0] items IH];
    intros c k layer_id lc Hc Hk Hbroken Hbefore.
  - destruct k; discriminate Hk.
  - rewrite outcome_plot_cons by exact Hc.
    rewrite drawn_layers_plot_cons, drawn_pen_ups_plot_cons by exact Hc.
    rewrite drawn_pen_ups_step, outcome_pen_up_step.
    assert (Hstroke : segments (layer_lines offset scale id0 lc0
                                  (color_at colorful c))
                      = map (map (rendered offset scale)) lc0).
    { cbn [layer_lines segments]. apply map_ext. intros line.
      apply stroke_rendered. }
    destruct k as [| k].
    + injection Hk as -> ->.
      rewrite (broken_layer_raises lc (real offset, imag offset) scale
                 Hbroken).
      cbn [map firstn snd app List.length]. rewrite Hstroke.
      now repeat split.
    + cbn [nth_error firstn] in Hk, Hbefore.
      inversion Hbefore as [| ? ? Hsound Hbefore']; subst.
      cbn [snd] in Hsound.
      destruct (pen_up_fails_on_broken_step lc0 offset scale)
        as [(segs & Hsegs & _) | [_ Hb]]; [| contradiction].
      rewrite Hsegs.
      destruct (IH _ k layer_id lc (advance_lt colorful c lc0) Hk Hbroken
                  Hbefore') as (Hout & Hdrawn & Hpen).
      split; [exact Hout |].
      split.
      * change (firstn (S (S k)) ((id0, lc0) :: items))
          with ((id0, lc0) :: firstn (S k) items).
        cbn [map snd]. now rewrite Hstroke, Hdrawn.
      * cbn [app List.length]. now rewrite Hpen.
Qed.

Lemma mapR_length {A B} (f : A -> result B) (l : list A) (ys : list B) :
  mapR f l = Ok ys -> List.length ys = List.length l.
Proof.
  revert ys. induction l as [| x l IH]; intros ys; cbn [mapR].
  - now intros [= <-].
  - destruct (f x) as [y |]; cbn [rbind]; [| discriminate].
    destruct (mapR f l) as [ys' |]; cbn [rbind]; [| discriminate].
    intros [= <-]. cbn [List.length]. f_equal. now apply IH.
Qed.

(** With pen-up display on, a loop that ends normally has met no broken
    layer and has drawn, for every layer, one segment less than it has
    paths. *)
Lemma plot_layers_pen_ups_Ok offset scale colorful items :
  forall c,
    c < 8 ->
    outcome (plot_layers offset scale true colorful items c) = Ok tt ->
    Forall (fun item => ~ broken_layer (snd item)) items /\
    map (fun col => List.length (segments col))
      (drawn_pen_ups (trace (plot_layers offset scale true colorful items c)))
    = map (fun n => n - 1) (path_counts items).
Proof.
  induction items as [| [id0 lc0] items IH]; intros c Hc Hok.
  - split; [constructor | reflexivity].
  - rewrite outcome_plot_cons in Hok by exact Hc.
    rewrite drawn_pen_ups_plot_cons by exact Hc.
    rewrite drawn_pen_ups_step.
    rewrite outcome_pen_up_step in Hok |- *.
    destruct (pen_up_fails_on_broken_step lc0 offset scale)
      as [(segs & Hsegs & Hsound) | [Hraise _]].
    + rewrite Hsegs in Hok |- *.
      destruct (IH _ (advance_lt colorful c lc0) Hok) as [Hall Hcounts].
      split; [constructor; assumption |].
      cbn [app map pen_up_collection segments path_counts snd].
      rewrite Hcounts. f_equal.
      rewrite pen_up_segments_pairs in Hsegs.
      apply mapR_length in Hsegs. now rewrite length_seq in Hsegs.
    + rewrite Hraise in Hok. discriminate Hok.
Qed.

(** ** The raster renderer: failures and completion *)

Lemma outcome_display_matplotlib host document page_size
    center show_axes show_grid show_pen_up colorful unit fig_size scale :
  rbind (convert_length host unit) (py_div 1%float) = Ok scale ->
  outcome (display_matplotlib host document page_size center show_axes
             show_grid show_pen_up colorful unit fig_size) =
  outcome (plot_layers
             (compute_offset center page_size
                (document_bounds host document))
             scale show_pen_up colorful (layers document) 0).
Proof.
  intros H. now rewrite (display_matplotlib_run _ _ _ _ _ _ _ _ _ _ _ H).
Qed.

(** A filter that keeps no collection, applied to the trace of a call that
    has a scale. *)
Lemma filter_display_matplotlib (p : event -> bool) host document page_size
    center show_axes show_grid show_pen_up colorful unit fig_size scale :
  (forall col, p (add_collection col) = false) ->
  rbind (convert_length host unit) (py_div 1%float) = Ok scale ->
  let run :=
    display_matplotlib host document page_size center show_axes show_grid
      show_pen_up colorful unit fig_size in
  filter p (trace run) =
  filter p (match fig_size with Some fs => [plt_figure fs] | None => [] end)
  ++ filter p [plt_cla]
  ++ filter p (trace (draw_page page_size scale))
  ++ match outcome run with
     | Ok _ =>
         filter p
           (invert_yaxis :: plt_axis "equal" :: plt_margins 0%float 0%float
            :: axes_and_grid show_axes show_grid unit ++ [plt_show])
     | Raise _ => []
     end.
Proof.
  intros Hp H run. subst run.
  rewrite (display_matplotlib_run _ _ _ _ _ _ _ _ _ _ _ H).
  cbn [trace outcome fst snd].
  change (plt_cla :: ?l) with ([plt_cla] ++ l).
  rewrite !filter_app.
  rewrite (filter_collections p _ Hp (plot_layers_draws_only _ _ _ _ _ _)).
  change (filter p []) with (@nil event). rewrite app_nil_r.
  match goal with |- context [outcome ?b] => now destruct (outcome b) end.
Qed.

(** A unit that cannot be converted, or whose length is zero (of either
    sign), ends the raster renderer before it makes any call on the canvas:
    the exception of the conversion, or [ZeroDivisionError], and an empty
    trace.  With any other unit the first call made is [plt.figure], when a
    figure size is given, and [plt.cla] otherwise. *)
Theorem unit_failure_precedes_drawing
    host document page_size center show_axes show_grid show_pen_up colorful
    unit fig_size :
  let run :=
    display_matplotlib host document page_size center show_axes show_grid
      show_pen_up colorful unit fig_size in
  (forall e, convert_length host unit = Raise e -> run = ([], Raise e)) /\
  (forall f, convert_length host unit = Ok f ->
             PrimFloat.eqb f 0%float = true ->
             run = ([], Raise ZeroDivisionError)) /\
  (forall f, convert_length host unit = Ok f ->
             PrimFloat.eqb f 0%float = false ->
             hd_error (trace run) =
             Some (match fig_size with
                   | Some fs => plt_figure fs
                   | None => plt_cla
                   end)).
Proof.
  intros run. subst run. split; [| split].
  - intros e He. apply display_matplotlib_no_scale. now rewrite He.
  - intros f Hf Hzero. apply display_matplotlib_no_scale.
    rewrite Hf. cbn [rbind]. unfold py_div. now rewrite Hzero.
  - intros f Hf Hnz.
    assert (Hscale : rbind (convert_length host unit) (py_div 1%float)
                     = Ok (1 / f)%float).
    { rewrite Hf. cbn [rbind]. unfold py_div. now rewrite Hnz. }
    rewrite (display_matplotlib_run _ _ _ _ _ _ _ _ _ _ _ Hscale).
    now destruct fig_size.
Qed.

Lemma unit_failure_precedes_drawing_example :
  display_matplotlib script_host two_paths None false true false false false
    "furlong" None
  = ([], Raise (ValueError "could not convert string to float")) /\
  display_matplotlib zero_unit_host two_paths None false true false false
    false "0cm" None
  = ([], Raise ZeroDivisionError) /\
  hd_error
    (trace (display_matplotlib script_host two_paths None false true false
              false false "cm" None))
  = Some plt_cla.
Proof.
  split; [| split].
  - apply (unit_failure_precedes_drawing script_host two_paths None false
             true false false false "furlong" None).
    reflexivity.
  - apply (unit_failure_precedes_drawing zero_unit_host two_paths None false
             true false false false "0cm" None) with (f := 0%float);
      reflexivity.
  - apply (unit_failure_precedes_drawing script_host two_paths None false
             true false false false "cm" None)
      with (f := 37.795275590551178%float); reflexivity.
Defined.

(** Without a figure size and without centring, the raster renderer
    neither creates a figure nor asks the document for its bounds.  Then,
    with pen-up display off, a unit that converts to a length other than
    zero is all it needs: whatever the document holds, empty paths
    included, the call ends normally, draws one collection of strokes per
    layer, each point scaled and not moved, and no pen-up collection. *)
Theorem raster_without_pen_up_succeeds
    host document page_size center show_axes show_grid colorful unit scale :
  rbind (convert_length host unit) (py_div 1%float) = Ok scale ->
  center = false \/ page_size = None ->
  let run :=
    display_matplotlib host document page_size center show_axes show_grid
      false colorful unit None in
  outcome run = Ok tt /\
  map segments (drawn_layers (trace run))
  = map (fun item => map (map (rendered origin scale)) (snd item))
        (layers document) /\
  drawn_pen_ups (trace run) = [].
Proof.
  intros Hscale Hoff run. subst run.
  rewrite (outcome_display_matplotlib _ _ _ _ _ _ _ _ _ _ _ Hscale).
  rewrite (drawn_layers_display_matplotlib _ _ _ _ _ _ _ _ _ _ _ Hscale).
  rewrite (drawn_pen_ups_display_matplotlib _ _ _ _ _ _ _ _ _ _ _ Hscale).
  rewrite (compute_offset_off _ _ _ Hoff).
  assert (Hok : outcome (plot_layers origin scale false colorful
                           (layers document) 0) = Ok tt)
    by (apply plot_layers_Ok; [lia | now left]).
  split; [exact Hok |].
  split; [apply plot_layers_segments; [lia | exact Hok] |].
  apply drawn_pen_ups_off. lia.
Qed.

Lemma raster_without_pen_up_succeeds_example :
  let run :=
    display_matplotlib script_host with_empty_path None false true false
      false false "px" None in
  outcome run = Ok tt /\
  map segments (drawn_layers (trace run))
  = map (fun item => map (map (rendered origin 1%float)) (snd item))
        (layers with_empty_path) /\
  drawn_pen_ups (trace run) = [].
Proof.
  apply (raster_without_pen_up_succeeds script_host with_empty_path None
           false true false false "px" 1%float).
  - vm_compute. reflexivity.
  - now left.
Defined.

(** Without a figure size and without centring, with pen-up display on and
    a unit of a length other than zero: when the [k]-th layer is the first
    broken one, the call raises [IndexError] after it has drawn the strokes
    of the layers up to and including that one and the pen-up segments of
    the layers before it; the axes are not set up and the figure is not
    shown. *)
Theorem broken_layer_leaves_partial_drawing
    host document page_size center show_axes show_grid colorful unit scale
    k layer_id lc :
  rbind (convert_length host unit) (py_div 1%float) = Ok scale ->
  center = false \/ page_size = None ->
  nth_error (layers document) k = Some (layer_id, lc) ->
  broken_layer lc ->
  Forall (fun item => ~ broken_layer (snd item))
         (firstn k (layers document)) ->
  let run :=
    display_matplotlib host document page_size center show_axes show_grid
      true colorful unit None in
  outcome run = Raise IndexError /\
  map segments (drawn_layers (trace run))
  = map (fun item => map (map (rendered origin scale)) (snd item))
        (firstn (S k) (layers document)) /\
  List.length (drawn_pen_ups (trace run)) = k /\
  filter is_plt_show (trace run) = [] /\
  axes_calls (trace run) = [].
Proof.
  intros Hscale Hoff Hk Hbroken Hbefore run. subst run.
  pose proof (filter_display_matplotlib is_plt_show host document page_size
                center show_axes show_grid true colorful unit None scale
                (fun _ => eq_refl) Hscale) as Hshow.
  pose proof (filter_display_matplotlib
                (fun e =>
                   match e with
                   | plt_axis _ | plt_xlabel _ | plt_ylabel _ => true
                   | _ => false
                   end)
                host document page_size center show_axes show_grid true
                colorful unit None scale (fun _ => eq_refl) Hscale) as Haxes.
  cbv zeta in Hshow, Haxes.
  rewrite (outcome_display_matplotlib _ _ _ _ _ _ _ _ _ _ _ Hscale)
    in Hshow, Haxes |- *.
  rewrite (drawn_layers_display_matplotlib _ _ _ _ _ _ _ _ _ _ _ Hscale).
  rewrite (drawn_pen_ups_display_matplotlib _ _ _ _ _ _ _ _ _ _ _ Hscale).
  rewrite (compute_offset_off _ _ _ Hoff) in Hshow, Haxes |- *.
  destruct (plot_layers_broken origin scale colorful (layers document) 0 k
              layer_id lc ltac:(lia) Hk Hbroken Hbefore)
    as (Hout & Hsegs & Hpen).
  rewrite Hout in Hshow, Haxes.
  split; [exact Hout |]. split; [exact Hsegs |]. split; [exact Hpen |].
  split.
  - rewrite Hshow. now destruct page_size.
  - unfold axes_calls. rewrite Haxes. now destruct page_size.
Qed.

(** In [with_empty_path] the second layer is the first broken one: its
    strokes and those of the first layer are drawn, the pen-up segments of
    the first layer too, and the call ends with [IndexError]. *)
Lemma broken_layer_leaves_partial_drawing_example :
  let run :=
    display_matplotlib script_host with_empty_path None false true false
      true false "px" None in
  outcome run = Raise IndexError /\
  map segments (drawn_layers (trace run))
  = map (fun item => map (map (rendered origin 1%float)) (snd item))
        (firstn 2 (layers with_empty_path)) /\
  List.length (drawn_pen_ups (trace run)) = 1 /\
  filter is_plt_show (trace run) = [] /\
  axes_calls (trace run) = [].
Proof.
  apply (broken_layer_leaves_partial_drawing script_host with_empty_path None
           false true false false "px" 1%float 1 2%Z
           [ [pt 4 4; pt 5 5]; [] ]%float).
  - vm_compute. reflexivity.
  - now left.
  - reflexivity.
  - split; [cbn; lia | right; now left].
  - repeat constructor. cbn [snd]. intros [_ Hex].
    apply Exists_exists in Hex.
    destruct Hex as (path & [<- | [<- | []]] & Hpath); discriminate Hpath.
Defined.

(** The raster renderer shows the figure exactly when it ends normally, once
    and as its last call; before it, the Y axis is inverted, the aspect set
    to equal and the margins to zero, in this order. *)
Theorem figure_shown_iff_success
    host document page_size center show_axes show_grid show_pen_up colorful
    unit fig_size :
  let run :=
    display_matplotlib host document page_size center show_axes show_grid
      show_pen_up colorful unit fig_size in
  filter is_plt_show (trace run) =
  match outcome run with
  | Ok _ => [plt_show]
  | Raise _ => []
  end /\
  (outcome run = Ok tt ->
   exists before,
     trace run =
     before
     ++ invert_yaxis :: plt_axis "equal" :: plt_margins 0%float 0%float
     :: axes_and_grid show_axes show_grid unit ++ [plt_show] /\
     filter is_plt_show before = [] /\
     axes_calls before = []).
Proof.
  intros run. subst run.
  destruct (rbind (convert_length host unit) (py_div 1%float))
    as [scale | e] eqn:Hscale.
  - split.
    + rewrite (filter_display_matplotlib is_plt_show _ _ _ _ _ _ _ _ _ _ scale
                 (fun _ => eq_refl) Hscale).
      match goal with |- context [outcome ?b] => destruct (outcome b) end;
        destruct fig_size, page_size, show_axes, show_grid; reflexivity.
    + intros Hok.
      rewrite (display_matplotlib_run _ _ _ _ _ _ _ _ _ _ _ Hscale) in Hok |- *.
      cbn [outcome snd] in Hok. cbn [trace fst]. rewrite Hok.
      eexists. split.
      * rewrite app_comm_cons, !app_assoc. reflexivity.
      * pose proof (plot_layers_draws_only
                      (compute_offset center page_size
                         (document_bounds host document))
                      scale show_pen_up colorful (layers document) 0)
          as Hbody.
        unfold axes_calls. rewrite !filter_app.
        rewrite (filter_collections is_plt_show _ (fun _ => eq_refl) Hbody).
        rewrite (filter_collections _ _ (fun _ => eq_refl) Hbody).
        now destruct fig_size, page_size.
  - rewrite (display_matplotlib_no_scale _ _ _ _ _ _ _ _ _ _ _ Hscale).
    split; [reflexivity | discriminate].
Qed.

Lemma figure_shown_iff_success_example :
  exists before,
    trace (display_matplotlib script_host two_paths (Some (10, 10)%float)
             true true false true false "px" None) =
    before
    ++ invert_yaxis :: plt_axis "equal" :: plt_margins 0%float 0%float
    :: axes_and_grid true false "px" ++ [plt_show] /\
    filter is_plt_show before = [] /\
    axes_calls before = [].
Proof.
  apply (figure_shown_iff_success script_host two_paths
           (Some (10, 10)%float) true true false true false "px" None).
  vm_compute. reflexivity.
Defined.

(** A raster rendering that ends normally has drawn the layers in the order
    of the document: the [k]-th collection of strokes carries the label
    [str(layer_id)] of the [k]-th layer and has one line per path of that
    layer, empty layers included. *)
Theorem layers_drawn_in_document_order
    host document page_size center show_axes show_grid show_pen_up colorful
    unit fig_size :
  let run :=
    display_matplotlib host document page_size center show_axes show_grid
      show_pen_up colorful unit fig_size in
  outcome run = Ok tt ->
  map label (drawn_layers (trace run))
  = map (fun item => Some (str_int (fst item))) (layers document) /\
  map (fun col => List.length (segments col)) (drawn_layers (trace run))
  = path_counts (layers document).
Proof.
  intros run Hok. subst run.
  destruct (rbind (convert_length host unit) (py_div 1%float))
    as [scale | e] eqn:Hscale.
  - rewrite (outcome_display_matplotlib _ _ _ _ _ _ _ _ _ _ _ Hscale) in Hok.
    rewrite (drawn_layers_display_matplotlib _ _ _ _ _ _ _ _ _ _ _ Hscale).
    apply plot_layers_in_order; [lia | exact Hok].
  - rewrite (display_matplotlib_no_scale _ _ _ _ _ _ _ _ _ _ _ Hscale) in Hok.
    discriminate Hok.
Qed.

Lemma layers_drawn_in_document_order_example :
  let run :=
    display_matplotlib script_host three_layers None false true false true
      true "cm" None in
  map label (drawn_layers (trace run)) = [Some "1"; Some "2"; Some "5"] /\
  map (fun col => List.length (segments col)) (drawn_layers (trace run))
  = [2; 0; 1].
Proof.
  apply (layers_drawn_in_document_order script_host three_layers None false
           true false true true "cm" None).
  vm_compute. reflexivity.
Defined.

(** A raster rendering with pen-up display on that ends normally has met
    no broken layer and has given every layer a pen-up collection of its
    own, in the order of the document: a layer of [K] paths has [K - 1]
    pen-up segments, a layer of one path or none an empty collection. *)
Theorem one_pen_up_collection_per_layer
    host document page_size center show_axes show_grid colorful unit
    fig_size :
  let run :=
    display_matplotlib host document page_size center show_axes show_grid
      true colorful unit fig_size in
  outcome run = Ok tt ->
  Forall (fun item => ~ broken_layer (snd item)) (layers document) /\
  map (fun col => List.length (segments col)) (drawn_pen_ups (trace run))
  = map (fun n => n - 1) (path_counts (layers document)).
Proof.
  intros run Hok. subst run.
  destruct (rbind (convert_length host unit) (py_div 1%float))
    as [scale | e] eqn:Hscale.
  - rewrite (outcome_display_matplotlib _ _ _ _ _ _ _ _ _ _ _ Hscale) in Hok.
    rewrite (drawn_pen_ups_display_matplotlib _ _ _ _ _ _ _ _ _ _ _ Hscale).
    apply plot_layers_pen_ups_Ok; [lia | exact Hok].
  - rewrite (display_matplotlib_no_scale _ _ _ _ _ _ _ _ _ _ _ Hscale) in Hok.
    discriminate Hok.
Qed.

Lemma one_pen_up_collection_per_layer_example :
  let run :=
    display_matplotlib script_host three_layers None false true false true
      false "px" None in
  Forall (fun item => ~ broken_layer (snd item)) (layers three_layers) /\
  map (fun col => List.length (segments col)) (drawn_pen_ups (trace run))
  = [1; 0; 0].
Proof.
  apply (one_pen_up_collection_per_layer script_host three_layers None false
           true false false "px" None).
  vm_compute. reflexivity.
Defined.

(** ** The palette has eight different colours *)

Lemma rgb_eqb_neq (a b : rgb) :
  rgb_eqb a a = true -> rgb_eqb a b = false -> a <> b.
Proof. intros Haa Hab <-. congruence. Qed.

Ltac palette_neq :=
  apply rgb_eqb_neq; vm_compute; reflexivity.

Lemma COLORS_NoDup : NoDup COLORS.
Proof.
  unfold COLORS.
  repeat (constructor;
          [cbn [In];
           repeat (let H := fresh in
                   intros [H | H]; [revert H; palette_neq | revert H]);
           now intros [] |]).
  constructor.
Qed.

Lemma COLORS_nth_inj (i j : nat) :
  i < 8 -> j < 8 ->
  nth i COLORS (0, 0, 0)%float = nth j COLORS (0, 0, 0)%float -> i = j.
Proof.
  intros Hi Hj. apply NoDup_nth; [exact COLORS_NoDup | |];
    now rewrite COLORS_length.
Qed.

Lemma layer_mode_color_at
    host document page_size center show_axes show_grid show_pen_up unit
    fig_size k col :
  nth_error
    (drawn_layers
       (trace (display_matplotlib host document page_size center show_axes
                 show_grid show_pen_up false unit fig_size))) k
  = Some col ->
  color col = OneColor (nth (k mod 8) COLORS (0, 0, 0)%float).
Proof.
  intros Hk.
  destruct (drawn_layers_display_matplotlib_inv _ _ _ _ _ _ _ _ _ _ _ _ Hk)
    as [scale Hscale].
  rewrite (drawn_layers_display_matplotlib _ _ _ _ _ _ _ _ _ _ _ Hscale)
    in Hk.
  destruct (plot_layers_nth _ _ _ _ _ 0 _ _ ltac:(lia) Hk)
    as (layer_id & lc & Hnth & ->).
  rewrite cursor_after_layer by lia.
  assert (Hlen : List.length (firstn k (layers document)) = k).
  { apply firstn_length_le, Nat.lt_le_incl, nth_error_Some. congruence. }
  rewrite Hlen. reflexivity.
Qed.

(** With one colour per layer, two layers of a raster rendering have the
    same colour exactly when their positions differ by a multiple of eight:
    up to eight layers are told apart by colour, and the ninth has the
    colour of the first again. *)
Theorem layer_colours_repeat_every_eight
    host document page_size center show_axes show_grid show_pen_up unit
    fig_size k1 k2 col1 col2 :
  let drawn :=
    drawn_layers
      (trace (display_matplotlib host document page_size center show_axes
                show_grid show_pen_up false unit fig_size)) in
  nth_error drawn k1 = Some col1 ->
  nth_error drawn k2 = Some col2 ->
  (color col1 = color col2 <-> k1 mod 8 = k2 mod 8).
Proof.
  intros drawn H1 H2. subst drawn.
  rewrite (layer_mode_color_at _ _ _ _ _ _ _ _ _ _ _ H1).
  rewrite (layer_mode_color_at _ _ _ _ _ _ _ _ _ _ _ H2).
  split.
  - intros Heq.
    apply COLORS_nth_inj; [apply Nat.mod_upper_bound; lia .. | congruence].
  - now intros ->.
Qed.

Lemma layer_colours_repeat_every_eight_example :
  let drawn :=
    drawn_layers
      (trace (display_matplotlib script_host ten_layers None false true false
                false false "px" None)) in
  color (nth 0 drawn no_collection) = color (nth 8 drawn no_collection) /\
  color (nth 0 drawn no_collection) <> color (nth 7 drawn no_collection).
Proof.
  intros drawn.
  assert (H : forall k, k < 10 ->
                nth_error drawn k = Some (nth k drawn no_collection)).
  { intros k Hk. apply nth_error_nth'. vm_compute. lia. }
  split.
  - apply (layer_colours_repeat_every_eight script_host ten_layers None false
             true false false "px" None 0 8 _ _
             (H 0 ltac:(lia)) (H 8 ltac:(lia))).
    reflexivity.
  - intros Heq.
    apply (layer_colours_repeat_every_eight script_host ten_layers None false
             true false false "px" None 0 7 _ _
             (H 0 ltac:(lia)) (H 7 ltac:(lia))) in Heq.
    discriminate Heq.
Defined.

(** ** The markup of the vector renderer *)

Lemma string_app_nil_r (s : string) : (s ++ "")%string = s.
Proof. induction s as [| c s IH]; cbn; [reflexivity | now rewrite IH]. Qed.

Lemma string_app_assoc (s t u : string) :
  ((s ++ t) ++ u)%string = (s ++ (t ++ u))%string.
Proof. induction s as [| c s IH]; cbn; [reflexivity | now rewrite IH]. Qed.

Lemma concat_empty_cons (x : string) (l : list string) :
  String.concat "" (x :: l) = (x ++ String.concat "" l)%string.
Proof.
  destruct l as [| y l]; cbn [String.concat].
  - now rewrite string_app_nil_r.
  - reflexivity.
Qed.

Lemma concat_empty_app (l1 l2 : list string) :
  String.concat "" (l1 ++ l2)
  = (String.concat "" l1 ++ String.concat "" l2)%string.
Proof.
  induction l1 as [| x l1 IH].
  - reflexivity.
  - cbn [app]. rewrite !concat_empty_cons, IH.
    now rewrite string_app_assoc.
Qed.

(** With IPython loaded the vector renderer makes one call, to
    [display_html], with the markup of [preview_markup]. *)
Lemma display_ipython_markup host document page_size center show_pen_up
    color_mode :
  IPython_in_sys_modules host = true ->
  exists svg_width svg_height svg_margin,
    display_ipython host document page_size center show_pen_up color_mode
    = ([display_html
          (preview_markup host page_size svg_width svg_height svg_margin
             (svg_id_of host)
             (svg_body_of host document page_size center show_pen_up
                color_mode))],
       Ok tt).
Proof.
  unfold display_ipython. intros ->. cbn [negb].
  destruct page_size as [ps |]; [| destruct (document_bounds host document)];
    do 3 eexists; reflexivity.
Qed.

Lemma preview_markup_parts host page_size svg_width svg_height svg_margin
    svg_id svg :
  exists a b c d,
    preview_markup host page_size svg_width svg_height svg_margin svg_id svg
    = (a ++ ("<svg id=" ++ dquote ++ svg_id ++ dquote)
         ++ b ++ svg
         ++ c ++ ("svgPanZoom('#" ++ svg_id ++ "'") ++ d)%string.
Proof.
  unfold preview_markup.
  match goal with |- context [String.concat "" ?l] => set (L := l) end.
  set (L1 := firstn 12 L). set (L2 := firstn 22 (skipn 16 L)).
  set (L3 := firstn 13 (skipn 39 L)). set (L4 := skipn 55 L).
  assert (HL : L = L1 ++ ["            <svg id="; dquote; svg_id; dquote]
                      ++ L2 ++ [svg]
                      ++ L3 ++ ["            svgPanZoom('#"; svg_id; "', {"]
                      ++ L4) by reflexivity.
  rewrite HL. clearbody L1 L2 L3 L4. clear HL L.
  exists (String.concat "" L1 ++ "            ")%string,
         (String.concat "" L2),
         (String.concat "" L3 ++ "            ")%string,
         (", {" ++ String.concat "" L4)%string.
  rewrite !concat_empty_app, !concat_empty_cons. cbn [String.concat].
  rewrite !string_app_assoc. reflexivity.
Qed.

(** With IPython loaded, the vector renderer hands [display_html] one
    markup, in which come, in this order: the [<svg>] element under the id
    ["svg_display_<n>"], [n] being the number drawn by [random.randint]; the
    SVG that [vp.write_svg] wrote for the document, unchanged (for the page
    [(0, 0)] when no page size is given); and the call of [svgPanZoom] on
    that same id. *)
Theorem markup_embeds_svg_under_one_id
    host document page_size center show_pen_up color_mode :
  IPython_in_sys_modules host = true ->
  exists html a b c d,
    display_ipython host document page_size center show_pen_up color_mode
    = ([display_html html], Ok tt) /\
    html =
    (a ++ ("<svg id=" ++ dquote ++ svg_id_of host ++ dquote)
       ++ b ++ svg_body_of host document page_size center show_pen_up
                 color_mode
       ++ c ++ ("svgPanZoom('#" ++ svg_id_of host ++ "'") ++ d)%string.
Proof.
  intros Hpy.
  destruct (display_ipython_markup host document page_size center show_pen_up
              color_mode Hpy) as (w & h & m & Hrun).
  destruct (preview_markup_parts host page_size w h m (svg_id_of host)
              (svg_body_of host document page_size center show_pen_up
                 color_mode)) as (a & b & c & d & Hparts).
  eexists. exists a, b, c, d. split; [exact Hrun | exact Hparts].
Qed.

Lemma markup_embeds_svg_under_one_id_example :
  exists html a b c d,
    display_ipython notebook_host two_paths None true false "layer"
    = ([display_html html], Ok tt) /\
    html =
    (a ++ ("<svg id=" ++ dquote ++ "svg_display_0" ++ dquote)
       ++ b ++ "<g/>" ++ c ++ "svgPanZoom('#svg_display_0'" ++ d)%string.
Proof.
  apply (markup_embeds_svg_under_one_id notebook_host two_paths None true
           false "layer").
  reflexivity.
Defined.

(** ** The dispatcher in raster mode *)

(** In raster mode [display] checks none of its options: it logs no
    warning, and every colour mode other than ["path"], known or not, is
    rendered as the mode ["layer"]. *)
Theorem raster_mode_checks_no_option
    host document page_size center show_axes show_grid show_pen_up color_mode
    unit fig_size :
  let run color_mode :=
    display host document page_size center show_axes show_grid show_pen_up
      color_mode unit (Some "matplotlib") fig_size in
  warnings (trace (run color_mode)) = [] /\
  (color_mode <> "path" -> run color_mode = run "layer").
Proof.
  intros run. subst run. cbv beta. split.
  - change (display host document page_size center show_axes show_grid
              show_pen_up color_mode unit (Some "matplotlib") fig_size)
      with (display_matplotlib host document page_size center show_axes
              show_grid show_pen_up (color_mode =? "path")%string unit
              fig_size).
    apply canvas_only_no_markup, display_matplotlib_canvas_only.
  - intros Hcm. unfold display. cbn [String.eqb Ascii.eqb Bool.eqb].
    apply String.eqb_neq in Hcm. now rewrite Hcm.
Qed.

Lemma raster_mode_checks_no_option_example :
  display script_host three_layers None false true false false "rainbow" "px"
    (Some "matplotlib") None
  = display script_host three_layers None false true false false "layer" "px"
      (Some "matplotlib") None.
Proof.
  apply (raster_mode_checks_no_option script_host three_layers None false
           true false false "rainbow" "px" None).
  discriminate.
Defined.

(** ** Colours per path, across layers *)

(** With one colour per path, the colours run on from one layer to the
    next: when [n] paths come before the [k]-th layer, the entry [j mod 8]
    of the list of colours handed to that layer is [COLORS[(n + j) mod 8]],
    the colour a single numbering of all the paths of the document would
    give to the path [n + j]. *)
Theorem path_colours_continue_across_layers
    host document page_size center show_axes show_grid show_pen_up unit
    fig_size k col :
  nth_error
    (drawn_layers
       (trace (display host document page_size center show_axes show_grid
                 show_pen_up "path" unit (Some "matplotlib") fig_size))) k
  = Some col ->
  exists palette,
    color col = ColorList palette /\
    forall j,
      nth_error palette (j mod 8) =
      nth_error COLORS
        ((list_sum (firstn k (path_counts (layers document))) + j) mod 8).
Proof.
  intros Hk. eexists. split; [exact (path_mode_color_at _ _ _ _ _ _ _ _ _ _ _ Hk) |].
  intros j.
  rewrite rotated_nth by (apply Nat.mod_upper_bound; lia).
  now rewrite <- Nat.Div0.add_mod.
Qed.

(** In [counts_3_6_1] nine paths come before the third layer: its list of
    colours starts at [COLORS[1]]. *)
Lemma path_colours_continue_across_layers_example :
  exists palette,
    color (nth 2 (drawn_layers
                    (trace (display script_host counts_3_6_1 None false true
                              false false "path" "px" (Some "matplotlib")
                              None))) no_collection)
    = ColorList palette /\
    nth_error palette 0 = Some (0, 0.5, 0)%float.
Proof.
  destruct (path_colours_continue_across_layers script_host counts_3_6_1 None
              false true false false "px" None 2
              (nth 2 (drawn_layers
                        (trace (display script_host counts_3_6_1 None false
                                  true false false "path" "px"
                                  (Some "matplotlib") None))) no_collection)
              ltac:(vm_compute; reflexivity))
    as (palette & Hcol & Hnth).
  exists palette. split; [exact Hcol |].
  exact (Hnth 0).
Defined.
